(** * Offline-first cache hook: [useOfflineFirstSupabase]

    A shallow embedding of [src/hooks/useOfflineFirstSupabase.ts]:
    the IndexedDB wrapper [OfflineFirstDB] and the React hook built on it.

    - IndexedDB object stores (created with [keyPath: 'id']) are finite maps
      from the record id to the record.
    - The hook is asynchronous.  Every [await] of the source is a suspension
      point: the code between two suspension points runs atomically (the
      JavaScript event loop), and a suspended invocation is kept as a task
      that an event settles later.
    - [useCallback] closures see the values of the render that created them;
      the refs ([useRef]) are shared by all renders. *)

From stdpp Require Import base option list strings gmap fin_maps pretty.

Set Default Proof Using "Type".

(** ** Thrown values *)

Inductive JsError : Type :=
| DomException (name message : string)   (* request.error, transaction() *)
| ErrorObject (message : string)         (* new Error(message) *)
| ThrownValue (description : string).    (* anything that is not an Error *)

Definition instanceofError (e : JsError) : bool :=
  match e with
  | DomException _ _ | ErrorObject _ => true
  | ThrownValue _ => false
  end.

Definition errorMessage (e : JsError) : string :=
  match e with
  | DomException _ m | ErrorObject m => m
  | ThrownValue _ => ""
  end.

(** The outcome of awaiting a promise. *)
Inductive Res (A : Type) : Type :=
| Ok (a : A)
| Throw (e : JsError).
Arguments Ok {A} a.
Arguments Throw {A} e.

Definition isOk {A} (r : Res A) : bool :=
  match r with Ok _ => true | Throw _ => false end.

(** [T extends { id: string }] *)
Class HasId (T : Type) := id_of : T → string.

(** ** The IndexedDB wrapper *)

Module OfflineFirstDB.
Section DB.
Context {T : Type} `{HasId T}.

(** [db] is the wrapper's handle ([this.db], [false] for [null]);
    [database] is what the browser keeps for ['dukafiti_offline']
    ([None] until the first successful open creates it);
    [open_failure] is the error [indexedDB.open] reports, if any. *)
Record IDB : Type := mkIDB {
  db : bool;
  open_failure : option JsError;
  database : option (gmap string (gmap string T))
}.

(** [onupgradeneeded]: the four stores, created empty. *)
Definition upgrade : gmap string (gmap string T) :=
  foldr (λ storeName stores, <[storeName := ∅]> stores) ∅
        ["products"; "customers"; "sales"; "settings"].

Definition objectStores (d : IDB) : gmap string (gmap string T) :=
  default ∅ (database d).

(** [transaction([storeName], ...)] on a store the database does not have. *)
Definition notFoundError : JsError :=
  DomException "NotFoundError" "One of the specified object stores was not found.".

Definition init (d : IDB) : Res unit * IDB :=
  if db d then (Ok tt, d)
  else match open_failure d with
       | Some e => (Throw e, d)
       | None =>
           (Ok tt, {| db := true; open_failure := None;
                      database := Some (default upgrade (database d)) |})
       end.

(** [store.clear(); data.forEach(item => store.put(item))].  A transaction
    that could be opened is taken to complete. *)
Definition putAll (items : list T) : gmap string T :=
  foldl (λ store item, <[id_of item := item]> store) ∅ items.

(** [store.getAll()], the records of the store in a fixed enumeration order
    (IndexedDB enumerates by ascending key; no caller depends on it). *)
Definition getAll (store : gmap string T) : list T :=
  (map_to_list store).*2.

Definition withStore (storeName : string) (store : gmap string T) (d : IDB) : IDB :=
  {| db := db d; open_failure := open_failure d;
     database := Some (<[storeName := store]> (objectStores d)) |}.

Definition set (storeName : string) (items : list T) (d : IDB) : Res unit * IDB :=
  match init d with
  | (Throw e, d1) => (Throw e, d1)
  | (Ok _, d1) =>
      if negb (db d1) then (Throw (ErrorObject "Database not initialized"), d1)
      else match objectStores d1 !! storeName with
           | None => (Throw notFoundError, d1)
           | Some _ => (Ok tt, withStore storeName (putAll items) d1)
           end
  end.

Definition get (storeName : string) (d : IDB) : Res (list T) * IDB :=
  match init d with
  | (Throw e, d1) => (Throw e, d1)
  | (Ok _, d1) =>
      if negb (db d1) then (Ok [], d1)
      else match objectStores d1 !! storeName with
           | None => (Throw notFoundError, d1)
           | Some store => (Ok (getAll store), d1)
           end
  end.

Definition clear (storeName : string) (d : IDB) : Res unit * IDB :=
  match init d with
  | (Throw e, d1) => (Throw e, d1)
  | (Ok _, d1) =>
      if negb (db d1) then (Ok tt, d1)
      else match objectStores d1 !! storeName with
           | None => (Throw notFoundError, d1)
           | Some _ => (Ok tt, withStore storeName ∅ d1)
           end
  end.
End DB.
Arguments IDB T : clear implicits.
End OfflineFirstDB.

Import OfflineFirstDB.

(** ** What the hook shows, logs and schedules *)

(** JavaScript truthiness of a value that may be [null]. *)
Definition truthy {A} (x : option A) : bool :=
  match x with Some _ => true | None => false end.

(** The authenticated caller, as [useAuth] supplies it. *)
Definition User : Type := string.

(** The values a [useCallback] closure captured from its render:
    [loadData] lists [user] and [isOnline] among its dependencies, and
    [refresh] and [testOffline] are rebuilt whenever [loadData] is. *)
Record Closure : Type := mkClosure {
  cl_user : option User;
  cl_isOnline : bool
}.

#[global] Instance Closure_eq_dec : EqDecision Closure.
Proof. solve_decision. Defined.

(** One constructor per [console.log] / [console.error] of the hook. *)
Inductive LogMsg : Type :=
| LogConnectionRestored
| LogConnectionLost
| LogLoadInProgress
| LogNoUser
| LogLoadingData (online forceRefresh : bool)
| LogLoadingFromSupabase
| LogLoadedFromSupabase (n : nat)
| LogDataCached
| ErrSupabaseLoadFailed (e : JsError)
| LogFallingBack (n : nat)
| LogUsingCachedOffline
| LogLoadingFromCache
| LogLoadedFromCache (n : nat)
| LogNoCachedDataOffline
| ErrLoadData (e : JsError)
| LogEmergencyFallback (n : nat)
| ErrCacheFallbackFailed (e : JsError)
| LogInitializing
| LogManualRefresh
| LogTestingOffline
| ErrOfflineTestFailed (e : JsError).

Record Toast : Type := mkToast {
  title : string;
  description : string;
  variant : string
}.

(** [TestResult]; [details] has one of two shapes. *)
Inductive Details : Type :=
| PassDetails (cacheSize : nat) (table : string) (timestamp : nat)
| FailDetails (err : string) (table : string) (timestamp : nat).

Record TestResult : Type := mkTestResult {
  success : bool;
  message : string;
  details : Details
}.

Definition detailsCacheSize (d : Details) : option nat :=
  match d with
  | PassDetails n _ _ => Some n
  | FailDetails _ _ _ => None
  end.

(** A [testOffline] invocation suspended on [await loadData(false)]. *)
Record Waiter : Type := mkWaiter {
  wt_cl : Closure;
  wt_cacheSize : nat
}.

(** A [testOffline] invocation suspended on its [await offlineDB.get]. *)
Record TestTask : Type := mkTestTask { tt_cl : Closure }.

Record Refs : Type := mkRefs {
  initializationRef : bool;
  loadingRef : bool
}.

(** What is observed from outside: toasts raised, console lines (newest
    first), the number of [loadFromSupabase()] calls made, the results
    [testOffline] resolved with (newest first), and the wall clock. *)
Record IO : Type := mkIO {
  toasts : list Toast;
  console : list LogMsg;
  remoteReads : nat;
  testResults : list TestResult;
  clock : nat
}.

(** React bookkeeping: the closure captured by the installed window
    listeners and the closure of the last render. *)
Record React : Type := mkReact {
  listeners : option Closure;
  rendered : option Closure
}.

Section Hook.
Context {T : Type} `{HasId T}.
Context (cacheKey tableName : string).

(** The [useState] cells. *)
Record HookState : Type := mkHookState {
  data : list T;
  loading : bool;
  error : option string;
  isOnline : bool;
  lastSyncTime : option nat
}.

(** The [await] a [loadData] invocation is suspended on. *)
Inductive LoadPc : Type :=
| AwaitRemote                          (* loadFromSupabase() *)
| AwaitSet (supabaseData : list T)     (* offlineDB.set(cacheKey, supabaseData) *)
| AwaitFallbackGet                     (* offlineDB.get in the inner catch *)
| AwaitCacheGet                        (* offlineDB.get in the else branch *)
| AwaitEmergencyGet.                   (* offlineDB.get in the outer catch *)

Record LoadTask : Type := mkLoadTask {
  lt_pc : LoadPc;
  lt_cl : Closure;
  lt_waiter : option Waiter
}.

Record World : Type := mkWorld {
  state : HookState;
  refs : Refs;
  offlineDB : IDB T;
  io : IO;
  loads : list LoadTask;
  tests : list TestTask;
  react : React
}.

(** *** Field updates *)

Definition onState (f : HookState → HookState) (w : World) : World :=
  mkWorld (f (state w)) (refs w) (offlineDB w) (io w) (loads w) (tests w) (react w).
Definition onRefs (f : Refs → Refs) (w : World) : World :=
  mkWorld (state w) (f (refs w)) (offlineDB w) (io w) (loads w) (tests w) (react w).
Definition onDB (f : IDB T → IDB T) (w : World) : World :=
  mkWorld (state w) (refs w) (f (offlineDB w)) (io w) (loads w) (tests w) (react w).
Definition onIO (f : IO → IO) (w : World) : World :=
  mkWorld (state w) (refs w) (offlineDB w) (f (io w)) (loads w) (tests w) (react w).
Definition onLoads (f : list LoadTask → list LoadTask) (w : World) : World :=
  mkWorld (state w) (refs w) (offlineDB w) (io w) (f (loads w)) (tests w) (react w).
Definition onTests (f : list TestTask → list TestTask) (w : World) : World :=
  mkWorld (state w) (refs w) (offlineDB w) (io w) (loads w) (f (tests w)) (react w).
Definition onReact (f : React → React) (w : World) : World :=
  mkWorld (state w) (refs w) (offlineDB w) (io w) (loads w) (tests w) (f (react w)).

(** *** Effects *)

Definition Eff (A : Type) : Type := World → A * World.

Definition ret {A} (a : A) : Eff A := λ w, (a, w).
Definition bind {A B} (m : Eff A) (k : A → Eff B) : Eff B :=
  λ w, let '(a, w1) := m w in k a w1.
Definition modify (f : World → World) : Eff unit := λ w, (tt, f w).
Definition reads {A} (f : World → A) : Eff A := λ w, (f w, w).
Definition exec {A} (m : Eff A) (w : World) : World := (m w).2.

Notation "'let*' x := m 'in' k" := (bind m (λ x, k))
  (at level 10, x name, m at level 100, k at level 200, only parsing).
Notation "m ;; k" := (bind m (λ _, k))
  (at level 100, k at level 200, right associativity, only parsing).

Definition when (b : bool) (m : Eff unit) : Eff unit :=
  if b then m else ret tt.

Definition setData (d : list T) : Eff unit :=
  modify (onState (λ s, mkHookState d (loading s) (error s) (isOnline s) (lastSyncTime s))).
Definition setLoading (b : bool) : Eff unit :=
  modify (onState (λ s, mkHookState (data s) b (error s) (isOnline s) (lastSyncTime s))).
Definition setError (e : option string) : Eff unit :=
  modify (onState (λ s, mkHookState (data s) (loading s) e (isOnline s) (lastSyncTime s))).
Definition setIsOnline (b : bool) : Eff unit :=
  modify (onState (λ s, mkHookState (data s) (loading s) (error s) b (lastSyncTime s))).
Definition setLastSyncTime (t : option nat) : Eff unit :=
  modify (onState (λ s, mkHookState (data s) (loading s) (error s) (isOnline s) t)).

Definition setInitializationRef (b : bool) : Eff unit :=
  modify (onRefs (λ r, mkRefs b (loadingRef r))).
Definition setLoadingRef (b : bool) : Eff unit :=
  modify (onRefs (λ r, mkRefs (initializationRef r) b)).

Definition log (m : LogMsg) : Eff unit :=
  modify (onIO (λ o, mkIO (toasts o) (m :: console o) (remoteReads o) (testResults o) (clock o))).
Definition toast (t : Toast) : Eff unit :=
  modify (onIO (λ o, mkIO (t :: toasts o) (console o) (remoteReads o) (testResults o) (clock o))).
Definition resolveTest (r : TestResult) : Eff unit :=
  modify (onIO (λ o, mkIO (toasts o) (console o) (remoteReads o) (r :: testResults o) (clock o))).
(** The call [loadFromSupabase()]: the request leaves. *)
Definition callLoadFromSupabase : Eff unit :=
  modify (onIO (λ o, mkIO (toasts o) (console o) (S (remoteReads o)) (testResults o) (clock o))).
Definition newDate : Eff nat := reads (λ w, clock (io w)).

Definition dbSet (items : list T) : Eff (Res unit) :=
  λ w, let '(r, d) := OfflineFirstDB.set cacheKey items (offlineDB w) in (r, onDB (λ _, d) w).
Definition dbGet : Eff (Res (list T)) :=
  λ w, let '(r, d) := OfflineFirstDB.get cacheKey (offlineDB w) in (r, onDB (λ _, d) w).

Definition suspend (t : LoadTask) : Eff unit := modify (onLoads (cons t)).
Definition suspendTest (t : TestTask) : Eff unit := modify (onTests (cons t)).

(** *** [testOffline], after [await loadData(false)] *)

Definition testPassed (wt : Waiter) : Eff unit :=
  setIsOnline (cl_isOnline (wt_cl wt)) ;;
  let* now := newDate in
  resolveTest
    {| success := true;
       message := "Offline test passed. " +:+ pretty (wt_cacheSize wt)
                  +:+ " items available in cache.";
       details := PassDetails (wt_cacheSize wt) tableName now |}.

(** *** [loadData] *)

(** Up to the first [await].  The result tells whether the returned
    promise is still pending; [waiter] is the caller awaiting it. *)
Definition loadData (cl : Closure) (forceRefresh : bool)
    (waiter : option Waiter) : Eff bool :=
  let* busy := reads (λ w, loadingRef (refs w)) in
  if busy then
    log LogLoadInProgress ;; ret false
  else if negb (truthy (cl_user cl)) then
    log LogNoUser ;;
    setData [] ;;
    setLoading false ;;
    setError None ;;
    ret false
  else
    setLoadingRef true ;;
    setLoading true ;;
    log (LogLoadingData (cl_isOnline cl) forceRefresh) ;;
    let* initialized := reads (λ w, initializationRef (refs w)) in
    if cl_isOnline cl && (forceRefresh || negb initialized) then
      log LogLoadingFromSupabase ;;
      callLoadFromSupabase ;;
      suspend (mkLoadTask AwaitRemote cl waiter) ;;
      ret true
    else
      log LogLoadingFromCache ;;
      suspend (mkLoadTask AwaitCacheGet cl waiter) ;;
      ret true.

(** The [finally] block; afterwards the promise resolves and an awaiting
    [testOffline] goes on. *)
Definition finallyLoad (t : LoadTask) : Eff unit :=
  setLoading false ;;
  setLoadingRef false ;;
  match lt_waiter t with
  | Some wt => testPassed wt
  | None => ret tt
  end.

(** The inner [catch (supabaseError)], up to its [await offlineDB.get].
    Its [try] holds both the remote read and the write to the store. *)
Definition catchSupabase (t : LoadTask) (supabaseError : JsError) : Eff unit :=
  log (ErrSupabaseLoadFailed supabaseError) ;;
  suspend (mkLoadTask AwaitFallbackGet (lt_cl t) (lt_waiter t)).

(** The outer [catch], up to its [await offlineDB.get]. *)
Definition catchLoad (t : LoadTask) (e : JsError) : Eff unit :=
  log (ErrLoadData e) ;;
  setError (Some (if instanceofError e then errorMessage e else "Failed to load data")) ;;
  suspend (mkLoadTask AwaitEmergencyGet (lt_cl t) (lt_waiter t)).

(** A suspended [loadData] goes on: [o] is what [loadFromSupabase()]
    settled with (looked at only by a task that awaits it); the store
    operations run against the store as it is now. *)
Definition resumeLoad (t : LoadTask) (o : Res (list T)) : Eff unit :=
  match lt_pc t with
  | AwaitRemote =>
      match o with
      | Ok supabaseData =>
          log (LogLoadedFromSupabase (length supabaseData)) ;;
          suspend (mkLoadTask (AwaitSet supabaseData) (lt_cl t) (lt_waiter t))
      | Throw supabaseError => catchSupabase t supabaseError
      end
  | AwaitSet supabaseData =>
      let* r := dbSet supabaseData in
      match r with
      | Ok _ =>
          log LogDataCached ;;
          setData supabaseData ;;
          setError None ;;
          (let* now := newDate in setLastSyncTime (Some now)) ;;
          setInitializationRef true ;;
          finallyLoad t
      | Throw supabaseError => catchSupabase t supabaseError
      end
  | AwaitFallbackGet =>
      let* r := dbGet in
      match r with
      | Ok cachedData =>
          log (LogFallingBack (length cachedData)) ;;
          setData cachedData ;;
          setError None ;;
          (let* initialized := reads (λ w, initializationRef (refs w)) in
           when (negb initialized) (log LogUsingCachedOffline)) ;;
          setInitializationRef true ;;
          finallyLoad t
      | Throw e => catchLoad t e
      end
  | AwaitCacheGet =>
      let* r := dbGet in
      match r with
      | Ok cachedData =>
          log (LogLoadedFromCache (length cachedData)) ;;
          setData cachedData ;;
          setError None ;;
          (let* initialized := reads (λ w, initializationRef (refs w)) in
           when (negb initialized && (length cachedData =? 0)
                 && negb (cl_isOnline (lt_cl t)))
                (log LogNoCachedDataOffline)) ;;
          setInitializationRef true ;;
          finallyLoad t
      | Throw e => catchLoad t e
      end
  | AwaitEmergencyGet =>
      let* r := dbGet in
      match r with
      | Ok cachedData =>
          setData cachedData ;;
          log (LogEmergencyFallback (length cachedData))
      | Throw cacheError =>
          log (ErrCacheFallbackFailed cacheError) ;;
          setData []
      end ;;
      when (cl_isOnline (lt_cl t))
           (toast {| title := "Error";
                     description := "Failed to load " +:+ tableName +:+ ". Please try again.";
                     variant := "destructive" |}) ;;
      finallyLoad t
  end.

(** *** [refresh], the listeners, the initial load, [testOffline] *)

Definition refresh (cl : Closure) : Eff unit :=
  log LogManualRefresh ;;
  loadData cl true None ;;
  ret tt.

Definition handleOnline (cl : Closure) : Eff unit :=
  log LogConnectionRestored ;;
  setIsOnline true ;;
  let* busy := reads (λ w, loadingRef (refs w)) in
  when (truthy (cl_user cl) && negb busy) (refresh cl).

Definition handleOffline : Eff unit :=
  log LogConnectionLost ;;
  setIsOnline false.

Definition initialLoad (cl : Closure) : Eff unit :=
  let* initialized := reads (λ w, initializationRef (refs w)) in
  when (negb initialized)
       (log LogInitializing ;; loadData cl false None ;; ret tt).

(** [testOffline], up to [await offlineDB.get]. *)
Definition testOffline (cl : Closure) : Eff unit :=
  log LogTestingOffline ;;
  suspendTest (mkTestTask cl).

(** [testOffline], from the settled [offlineDB.get] on. *)
Definition resumeTest (t : TestTask) : Eff unit :=
  let* r := dbGet in
  match r with
  | Ok cachedData =>
      let wt := mkWaiter (tt_cl t) (length cachedData) in
      setIsOnline false ;;
      let* pending := loadData (tt_cl t) false (Some wt) in
      if pending then ret tt else testPassed wt
  | Throw e =>
      log (ErrOfflineTestFailed e) ;;
      let* now := newDate in
      let msg := if instanceofError e then errorMessage e else "Unknown error" in
      resolveTest
        {| success := false;
           message := "Offline test failed: " +:+ msg;
           details := FailDetails msg tableName now |}
  end.

(** *** The hook as a transition system *)

(** A render with the caller [user]: the listener effect (dependencies
    [user], [cacheKey]) re-installs the listeners when [user] changed; the
    initial-load effect (dependency [loadData]) runs when [loadData] was
    rebuilt, that is when [user] or [isOnline] changed.  [cacheKey],
    [tableName], [loadFromSupabase] and [toast] are taken to be stable. *)
Definition render (user : option User) : Eff unit :=
  let* online := reads (λ w, isOnline (state w)) in
  let* prev := reads (λ w, rendered (react w)) in
  let cl := mkClosure user online in
  let userChanged :=
    match prev with
    | None => true
    | Some p => negb (bool_decide (cl_user p = user))
    end in
  let loadDataChanged := negb (bool_decide (prev = Some cl)) in
  when userChanged
       (modify (onReact (λ r, mkReact (Some cl) (rendered r)))) ;;
  modify (onReact (λ r, mkReact (listeners r) (Some cl))) ;;
  when loadDataChanged (initialLoad cl).

Definition settleLoad (i : nat) (o : Res (list T)) : Eff unit :=
  let* ts := reads loads in
  match ts !! i with
  | Some t => modify (onLoads (delete i)) ;; resumeLoad t o
  | None => ret tt
  end.

Definition settleTest (i : nat) : Eff unit :=
  let* ts := reads tests in
  match ts !! i with
  | Some t => modify (onTests (delete i)) ;; resumeTest t
  | None => ret tt
  end.

Inductive Event : Type :=
| EvRender (user : option User)          (* React renders the component *)
| EvOnline                               (* window 'online' *)
| EvOffline                              (* window 'offline' *)
| EvRefresh                              (* the caller invokes refresh() *)
| EvTestOffline                          (* the caller invokes testOffline() *)
| EvSettleLoad (i : nat) (o : Res (list T))  (* the await of load i settles *)
| EvSettleTest (i : nat)                 (* the await of test i settles *)
| EvTick.                                (* time passes *)

Definition withRendered (k : Closure → Eff unit) : Eff unit :=
  let* r := reads (λ w, rendered (react w)) in
  match r with Some cl => k cl | None => ret tt end.

Definition step (e : Event) : Eff unit :=
  match e with
  | EvRender user => render user
  | EvOnline =>
      let* l := reads (λ w, listeners (react w)) in
      match l with Some cl => handleOnline cl | None => ret tt end
  | EvOffline =>
      let* l := reads (λ w, listeners (react w)) in
      match l with Some _ => handleOffline | None => ret tt end
  | EvRefresh => withRendered refresh
  | EvTestOffline => withRendered testOffline
  | EvSettleLoad i o => settleLoad i o
  | EvSettleTest i => settleTest i
  | EvTick =>
      modify (onIO (λ o, mkIO (toasts o) (console o) (remoteReads o)
                              (testResults o) (S (clock o))))
  end.

Definition run (es : list Event) (w : World) : World :=
  foldl (λ w e, exec (step e) w) w es.

(** The hook before its first render: [useState] and [useRef] initial
    values, [navigator.onLine] for [isOnline]. *)
Definition initialWorld (navigatorOnLine : bool) (d : IDB T) (now : nat) : World :=
  {| state := mkHookState [] true None navigatorOnLine None;
     refs := mkRefs false false;
     offlineDB := d;
     io := mkIO [] [] 0 [] now;
     loads := [];
     tests := [];
     react := mkReact None None |}.

Inductive reachable : World → Prop :=
| reach_initial online d now : reachable (initialWorld online d now)
| reach_step e w : reachable w → reachable (exec (step e) w).

(** *** One invocation, run to its end *)

(** A [loadData] call suspends at most four times: on the remote read,
    the write to the store, and the reads of the two [catch] blocks. *)
Definition settleLoads (o : Res (list T)) (w : World) : World :=
  exec (settleLoad 0 o)
    (exec (settleLoad 0 o) (exec (settleLoad 0 o) (exec (settleLoad 0 o) w))).

Definition runLoadData (cl : Closure) (forceRefresh : bool)
    (o : Res (list T)) (w : World) : World :=
  settleLoads o (exec (loadData cl forceRefresh None) w).

Definition runTestOffline (cl : Closure) (o : Res (list T)) (w : World) : World :=
  settleLoads o (exec (settleTest 0) (exec (testOffline cl) w)).

(** No [loadData] invocation is in flight. *)
Definition idle (w : World) : bool :=
  negb (loadingRef (refs w)) && bool_decide (loads w = []).

(** What the hook returns to its caller (besides the two callbacks). *)
Definition hookResult (w : World) : HookState := state w.

(** The in-flight flag is set exactly while one invocation is suspended. *)
Definition singleFlight (w : World) : Prop :=
  length (loads w) = if loadingRef (refs w) then 1 else 0.

(** The number of loads entered with [forceRefresh] set, read off the
    console line every entered load writes. *)
Definition isForcedLoad (m : LogMsg) : bool :=
  match m with
  | LogLoadingData _ forceRefresh => forceRefresh
  | _ => false
  end.

Definition forcedLoads (w : World) : nat :=
  length (List.filter isForcedLoad (console (io w))).
End Hook.

(** A concrete record type for the examples. *)
Record Item : Type := mkItem { item_id : string; item_name : string }.

#[global] Instance Item_HasId : HasId Item := item_id.

Definition freshDB : IDB Item :=
  {| db := false; open_failure := None; database := None |}.

Definition sugar1 : Item := mkItem "p1" "Sugar 1kg".
Definition sugar2 : Item := mkItem "p1" "Sugar 2kg".
Definition flour : Item := mkItem "p2" "Flour 2kg".

(** ** Callers and worlds of the examples *)

Definition owner : Closure := mkClosure (Some "owner") true.
Definition ownerOffline : Closure := mkClosure (Some "owner") false.
Definition signedOut : Closure := mkClosure None false.
Definition signedOutOnline : Closure := mkClosure None true.

(** The store after an earlier session cached two products. *)
Definition stockedDB : IDB Item :=
  (OfflineFirstDB.set "products" [sugar1; flour] freshDB).2.

(** A browser in which [indexedDB.open] fails. *)
Definition blockedDB : IDB Item :=
  {| db := false;
     open_failure := Some (DomException "UnknownError" "The operation failed.");
     database := None |}.

(** Five cached customers. *)
Definition customers : list Item :=
  [mkItem "c1" "Achieng"; mkItem "c2" "Baraka"; mkItem "c3" "Chebet";
   mkItem "c4" "Daudi"; mkItem "c5" "Eshe"].

Definition customersDB : IDB Item :=
  (OfflineFirstDB.set "customers" customers freshDB).2.

Definition fetchFailed : JsError := ErrorObject "Failed to fetch".

(** The hook of the products page before its first render. *)
Definition productsPage (navigatorOnLine : bool) (d : IDB Item) : World :=
  initialWorld navigatorOnLine d 100.

(** ... after a first load that went to the remote system. *)
Definition productsLoaded : World :=
  runLoadData "products" "products" owner false (Ok [flour]) (productsPage true freshDB).

(** ... just after its first render, the first load still in flight. *)
Definition productsMounting : World :=
  exec (step "products" "products" (EvRender (Some "owner"))) (productsPage true freshDB).

(** ... mounted and loaded while online, then offline. *)
Definition productsWentOffline : World :=
  run "products" "products"
    [EvRender (Some "owner"); EvSettleLoad 0 (Ok [flour]); EvSettleLoad 0 (Ok []);
     EvOffline; EvRender (Some "owner")]
    (productsPage true freshDB).


(** The hook mounted while offline on a device that never cached anything,
    its first load done. *)
Definition productsEmptyOffline : World :=
  run "products" "products"
    [EvRender (Some "owner"); EvSettleLoad 0 (Ok [])]
    (productsPage false freshDB).

(** A page reload: the module is evaluated again, [new OfflineFirstDB()]
    starts with [db] null, and the browser still has the database. *)
Definition reload {T : Type} (d : IDB T) : IDB T :=
  {| db := false; open_failure := open_failure d; database := database d |}.

(** The database just created by a first open; a store holding products
    and customers; that store with its products cleared. *)
Definition openedDB : IDB Item := (init freshDB).2.

Definition shopDB : IDB Item :=
  (OfflineFirstDB.set "customers" customers stockedDB).2.

Definition clearedDB : IDB Item := (clear "products" shopDB).2.

(** ** The keyed store *)

Section DBFacts.
Context {T : Type} `{HasId T}.
Implicit Types (d : IDB T) (X : list T).

Lemma init_db d d1 r : init d = (r, d1) → isOk r = true → db d1 = true.
Proof.
  unfold init. destruct (db d) eqn:E.
  - intros [= <- <-] _. exact E.
  - destruct (open_failure d); intros [= <- <-]; simpl; [discriminate | done].
Qed.

Lemma init_idem d d1 : init d = (Ok tt, d1) → init d1 = (Ok tt, d1).
Proof.
  intros Hi. unfold init at 1.
  by rewrite (init_db _ _ _ Hi eq_refl).
Qed.

Lemma putAll_rev X :
  putAll X = list_to_map (reverse ((λ x, (id_of x, x)) <$> X)).
Proof.
  unfold putAll. induction X as [|x X IH] using rev_ind; [done|].
  rewrite foldl_snoc, fmap_app, reverse_app. simpl. by rewrite IH.
Qed.

Lemma getAll_putAll X : NoDup (id_of <$> X) → getAll (putAll X) ≡ₚ X.
Proof.
  intros Hnd. unfold getAll. rewrite putAll_rev.
  set (l := (λ x : T, (id_of x, x)) <$> X).
  assert (Hfst : l.*1 = id_of <$> X).
  { unfold l. rewrite <- list_fmap_compose. done. }
  assert (Hsnd : l.*2 = X).
  { unfold l. rewrite <- list_fmap_compose. apply list_fmap_id. }
  rewrite map_to_list_to_map.
  - rewrite fmap_reverse, reverse_Permutation. by rewrite Hsnd.
  - rewrite fmap_reverse, reverse_Permutation. by rewrite Hfst.
Qed.

Lemma set_get storeName X d d1 :
  set storeName X d = (Ok tt, d1) →
  get storeName d1 = (Ok (getAll (putAll X)), d1).
Proof.
  unfold set. destruct (init d) as [[[]|e] d0] eqn:Hi; [|discriminate].
  pose proof (init_db _ _ _ Hi eq_refl) as Hdb. rewrite Hdb. simpl.
  destruct (objectStores d0 !! storeName) eqn:Hs; [|discriminate].
  intros [= <-]. unfold get, init. simpl. rewrite Hdb. simpl.
  unfold objectStores at 1. simpl. by rewrite Hdb, lookup_insert_eq.
Qed.

Lemma getAll_putAll_elem X r : r ∈ getAll (putAll X) → r ∈ X.
Proof.
  unfold getAll. rewrite putAll_rev. intros Hr.
  apply list_elem_of_fmap in Hr as ([k r'] & -> & Hkr).
  apply elem_of_map_to_list, elem_of_list_to_map_2 in Hkr.
  rewrite elem_of_reverse in Hkr.
  apply list_elem_of_fmap in Hkr as (x & [= _ ->] & Hx). exact Hx.
Qed.

(** C2 (amended). After a bulk replace [set T X] that succeeded, [get T]
    returns the records of the store built from [X] alone, whatever the
    table held before: every record returned is one of [X], and when the
    ids in [X] are pairwise distinct the result is [X] up to order.  The
    other tables are as the database had them. *)
Theorem C2_bulk_replace_then_getAll storeName X d d1 :
  OfflineFirstDB.set storeName X d = (Ok tt, d1) →
  OfflineFirstDB.get storeName d1 = (Ok (getAll (putAll X)), d1)
  ∧ (∀ r, r ∈ getAll (putAll X) → r ∈ X)
  ∧ (NoDup (id_of <$> X) → getAll (putAll X) ≡ₚ X)
  ∧ objectStores d1 !! storeName = Some (putAll X)
  ∧ (∀ other, other ≠ storeName →
       objectStores d1 !! other = objectStores (init d).2 !! other).
Proof.
  intros Hset. split; [by apply (set_get _ _ d)|].
  split; [apply getAll_putAll_elem|]. split; [apply getAll_putAll|].
  revert Hset. unfold set.
  destruct (init d) as [[[]|e] d0] eqn:Hi; [|discriminate].
  rewrite (init_db _ _ _ Hi eq_refl). simpl.
  destruct (objectStores d0 !! storeName) eqn:Hs; [|discriminate].
  intros [= <-]. unfold withStore, objectStores. simpl. split.
  - apply lookup_insert_eq.
  - intros other Hne. by rewrite lookup_insert_ne.
Qed.
End DBFacts.

(** ** The wrapper beyond the bulk replace *)

Section StoreFacts.
Context {T : Type} `{HasId T}.
Implicit Types (d : IDB T) (X Y : list T) (e : JsError).

Lemma init_ok_inv d d1 :
  init d = (Ok tt, d1) →
  (db d = true ∧ d1 = d)
  ∨ (db d = false ∧ open_failure d = None
     ∧ d1 = mkIDB true None (Some (default upgrade (database d)))).
Proof.
  unfold init. destruct (db d) eqn:Hdb.
  - intros [= <-]. by left.
  - destruct (open_failure d) eqn:Ho; [discriminate|]. intros [= <-]. by right.
Qed.

Lemma init_throw_inv d d1 e :
  init d = (Throw e, d1) → db d = false ∧ open_failure d = Some e ∧ d1 = d.
Proof.
  unfold init. destruct (db d); [discriminate|].
  destruct (open_failure d); [|discriminate]. by intros [= <- <-].
Qed.

Lemma init_again d d1 : init d = (Ok tt, d1) → init d1 = (Ok tt, d1).
Proof.
  intros Hi. unfold init. by rewrite (init_db _ _ _ Hi eq_refl).
Qed.

(** What a store operation leaves behind, seen through a later [init]. *)
Lemma get_snd name d :
  (get name d).2 = (init d).2.
Proof.
  unfold get. destruct (init d) as [[[]|e] d1] eqn:Hi; [|done].
  rewrite (init_db _ _ _ Hi eq_refl). simpl.
  by destruct (objectStores d1 !! name).
Qed.

Lemma get_after_init name d : get name (init d).2 = get name d.
Proof.
  unfold get at 2. destruct (init d) as [[[]|e] d1] eqn:Hi; simpl.
  - unfold get. by rewrite (init_again _ _ Hi).
  - apply init_throw_inv in Hi as (Hdb & Ho & ->).
    unfold get, init. by rewrite Hdb, Ho.
Qed.

Lemma get_frame name d r d1 name' :
  get name d = (r, d1) → get name' d1 = get name' d.
Proof.
  intros Hg. replace d1 with (get name d).2 by (by rewrite Hg).
  by rewrite get_snd, get_after_init.
Qed.

(** X1. Reading never disturbs the store: whatever was read before, of
    whatever table and with whatever outcome, a read of any table returns
    what it would have returned, and leaves the wrapper as it would have
    left it. *)
Theorem get_is_read_only name name' d :
  get name' (get name d).2 = get name' d.
Proof. by rewrite get_snd, get_after_init. Qed.

Lemma upgrade_lookup name :
  (upgrade (T:=T)) !! name =
  if bool_decide (name ∈ ["products"; "customers"; "sales"; "settings"])
  then Some ∅ else None.
Proof.
  unfold upgrade. simpl.
  rewrite !lookup_insert, lookup_empty.
  case_bool_decide as Hin.
  - repeat case_decide; try done.
    rewrite !elem_of_cons, elem_of_nil in Hin.
    destruct Hin as [?|[?|[?|[?|[]]]]]; congruence.
  - rewrite !not_elem_of_cons in Hin. destruct Hin as (? & ? & ? & ? & _).
    repeat case_decide; congruence.
Qed.

Lemma getAll_empty : getAll (∅ : gmap string T) = [].
Proof. unfold getAll. by rewrite map_to_list_empty. Qed.

(** X2. On a device where the database does not exist yet, the first read
    creates it: it returns no records for the four tables that
    [onupgradeneeded] creates and throws [NotFoundError] for any other
    name. *)
Theorem get_on_new_database name d :
  db d = false →
  open_failure d = None →
  database d = None →
  get name d =
  (if bool_decide (name ∈ ["products"; "customers"; "sales"; "settings"])
   then Ok [] else Throw notFoundError,
   mkIDB true None (Some upgrade)).
Proof.
  intros Hdb Ho Hnone. unfold get, init. rewrite Hdb, Ho, Hnone. simpl.
  unfold objectStores. simpl. rewrite upgrade_lookup.
  case_bool_decide; [by rewrite getAll_empty|done].
Qed.

(** X3. When [indexedDB.open] fails, every operation rejects with the
    error of the open request and leaves the wrapper as it was, so the next
    operation tries to open again. *)
Theorem operations_reject_when_open_fails name X d e :
  db d = false →
  open_failure d = Some e →
  OfflineFirstDB.set name X d = (Throw e, d)
  ∧ get name d = (Throw e, d)
  ∧ clear name d = (Throw e, d).
Proof.
  intros Hdb Ho. unfold OfflineFirstDB.set, get, clear, init.
  by rewrite Hdb, Ho.
Qed.

(** X4. On a table the database does not have, the three operations throw
    [NotFoundError] and change no table. *)
Theorem operations_reject_unknown_table name X d d1 :
  init d = (Ok tt, d1) →
  objectStores d1 !! name = None →
  OfflineFirstDB.set name X d = (Throw notFoundError, d1)
  ∧ get name d = (Throw notFoundError, d1)
  ∧ clear name d = (Throw notFoundError, d1)
  ∧ ∀ name', get name' d1 = get name' d.
Proof.
  intros Hi Hnone. unfold OfflineFirstDB.set, get at 1, clear.
  rewrite Hi, (init_db _ _ _ Hi eq_refl), Hnone. simpl.
  repeat split. intros name'.
  replace d1 with (init d).2 by (by rewrite Hi). apply get_after_init.
Qed.

Lemma set_ok_inv name X d d1 :
  OfflineFirstDB.set name X d = (Ok tt, d1) →
  ∃ d0, init d = (Ok tt, d0) ∧ db d0 = true
        ∧ is_Some (objectStores d0 !! name)
        ∧ d1 = withStore name (putAll X) d0.
Proof.
  unfold OfflineFirstDB.set.
  destruct (init d) as [[[]|e] d0] eqn:Hi; [|discriminate].
  pose proof (init_db _ _ _ Hi eq_refl) as Hdb. rewrite Hdb. simpl.
  destruct (objectStores d0 !! name) eqn:Hs; [|discriminate].
  intros [= <-]. exists d0. eauto.
Qed.

Lemma set_throw_frame name X d e d1 name' :
  OfflineFirstDB.set name X d = (Throw e, d1) → get name' d1 = get name' d.
Proof.
  unfold OfflineFirstDB.set.
  destruct (init d) as [[[]|e0] d0] eqn:Hi.
  - rewrite (init_db _ _ _ Hi eq_refl). simpl.
    destruct (objectStores d0 !! name); [discriminate|]. intros [= _ <-].
    replace d0 with (init d).2 by (by rewrite Hi). apply get_after_init.
  - intros [= _ <-].
    replace d0 with (init d).2 by (by rewrite Hi). apply get_after_init.
Qed.

Lemma get_withStore_ne name store d0 name' :
  db d0 = true → name' ≠ name →
  (get name' (withStore name store d0)).1 = (get name' d0).1.
Proof.
  intros Hdb Hne. unfold get, init. simpl. rewrite Hdb. simpl.
  unfold withStore, objectStores. simpl. rewrite Hdb. simpl.
  rewrite lookup_insert_ne by done.
  by destruct (default ∅ (database d0) !! name').
Qed.

Lemma set_ok_frame name X d d1 name' :
  OfflineFirstDB.set name X d = (Ok tt, d1) → name' ≠ name →
  (get name' d1).1 = (get name' d).1.
Proof.
  intros (d0 & Hi & Hdb & _ & ->)%set_ok_inv Hne.
  rewrite get_withStore_ne by done.
  replace d0 with (init d).2 by (by rewrite Hi). by rewrite get_after_init.
Qed.

(** X5. The last replace wins: replacing a table with [Y] after it was
    replaced with [X] leaves the database exactly as replacing it with [Y]
    alone; in particular repeating a replace changes nothing. *)
Theorem set_after_set name X Y d d1 :
  OfflineFirstDB.set name X d = (Ok tt, d1) →
  OfflineFirstDB.set name Y d1 = OfflineFirstDB.set name Y d
  ∧ OfflineFirstDB.set name X d1 = (Ok tt, d1).
Proof.
  intros (d0 & Hi & Hdb & [s Hs] & ->)%set_ok_inv.
  assert (Hset : ∀ Z, OfflineFirstDB.set name Z (withStore name (putAll X) d0)
                      = (Ok tt, withStore name (putAll Z) d0)).
  { intros Z. unfold OfflineFirstDB.set, init. simpl. rewrite Hdb. simpl.
    unfold objectStores at 1. simpl. rewrite lookup_insert_eq, Hdb. simpl.
    unfold withStore, objectStores. simpl. by rewrite insert_insert_eq. }
  split; [|apply Hset].
  rewrite Hset. unfold OfflineFirstDB.set. rewrite Hi, Hdb, Hs. done.
Qed.

(** X6. A [clear] that succeeds empties the table and no other: a read of
    it returns no records, a read of another table returns what it
    returned before. *)
Theorem clear_then_get name d d1 :
  clear name d = (Ok tt, d1) →
  get name d1 = (Ok [], d1)
  ∧ ∀ name', name' ≠ name → (get name' d1).1 = (get name' d).1.
Proof.
  unfold clear. destruct (init d) as [[[]|e] d0] eqn:Hi; [|discriminate].
  pose proof (init_db _ _ _ Hi eq_refl) as Hdb. rewrite Hdb. simpl.
  destruct (objectStores d0 !! name) eqn:Hs; [|discriminate].
  intros [= <-]. split.
  - unfold get, init. simpl. rewrite Hdb. simpl.
    unfold objectStores at 1. simpl. by rewrite lookup_insert_eq, Hdb, getAll_empty.
  - intros name' Hne. rewrite get_withStore_ne by done.
    replace d0 with (init d).2 by (by rewrite Hi). by rewrite get_after_init.
Qed.

(** The record kept under a key is the last one put with that id. *)
Lemma putAll_lookup X k :
  putAll X !! k = last (filter (λ x, id_of x = k) X).
Proof.
  unfold putAll. induction X as [|x X IH] using rev_ind; [done|].
  rewrite foldl_snoc, filter_app, lookup_insert. case_decide as Hk.
  - rewrite filter_cons_True by done. by rewrite filter_nil, last_snoc.
  - rewrite filter_cons_False by done. by rewrite filter_nil, app_nil_r.
Qed.

Lemma putAll_size X : size (putAll X) ≤ length X.
Proof.
  unfold putAll. induction X as [|x X IH] using rev_ind.
  - simpl. by rewrite map_size_empty.
  - rewrite foldl_snoc, map_size_insert, length_app. simpl.
    destruct (foldl _ _ _ !! _); simpl; lia.
Qed.

Lemma putAll_key X k r : putAll X !! k = Some r → id_of r = k.
Proof.
  rewrite putAll_lookup. intros Hl.
  apply last_Some_elem_of, list_elem_of_filter in Hl. tauto.
Qed.

(** X7. What a bulk replace keeps: a read after [set T X] returns, for each
    id of [X], the last record of [X] with that id and nothing else; the
    records returned have pairwise distinct ids and are at most as many as
    [X] has. *)
Theorem set_keeps_last_per_id name X d d1 :
  OfflineFirstDB.set name X d = (Ok tt, d1) →
  ∃ Y, get name d1 = (Ok Y, d1)
       ∧ NoDup (id_of <$> Y)
       ∧ length Y ≤ length X
       ∧ ∀ r, r ∈ Y ↔ last (filter (λ x, id_of x = id_of r) X) = Some r.
Proof.
  intros Hset. exists (getAll (putAll X)).
  split; [by apply (set_get _ _ d)|].
  assert (Hids : id_of <$> getAll (putAll X) = (map_to_list (putAll X)).*1).
  { unfold getAll. rewrite <- list_fmap_compose.
    apply list_fmap_ext. intros i [k r] Hkr%list_elem_of_lookup_2. simpl.
    apply elem_of_map_to_list in Hkr. by apply putAll_key in Hkr. }
  split; [rewrite Hids; apply NoDup_fst_map_to_list|].
  split.
  - unfold getAll. rewrite length_fmap, length_map_to_list.
    apply putAll_size.
  - intros r. rewrite <- putAll_lookup. unfold getAll. split.
    + intros ([k r'] & -> & Hkr)%list_elem_of_fmap. simpl.
      apply elem_of_map_to_list in Hkr.
      by rewrite (putAll_key _ _ _ Hkr).
    + intros Hr. apply list_elem_of_fmap. exists (id_of r, r).
      split; [done|]. by apply elem_of_map_to_list.
Qed.

(** A new wrapper on a database that opens reads the stores the browser
    kept. *)
Lemma get_reload name d stores :
  open_failure d = None →
  database d = Some stores →
  (get name (reload d)).1 =
  match stores !! name with
  | Some store => Ok (getAll store)
  | None => Throw notFoundError
  end.
Proof.
  intros Ho Hs. unfold get, init, reload. simpl.
  rewrite Ho, Hs. simpl. unfold objectStores. simpl.
  by destruct (stores !! name).
Qed.

(** X8. What was written survives a page reload: when the database can be
    opened again, a new wrapper reads from every table what the old one
    would have read. *)
Theorem reload_keeps_records name d :
  db d = true →
  open_failure d = None →
  is_Some (database d) →
  (get name (reload d)).1 = (get name d).1.
Proof.
  intros Hdb Ho [s Hs]. rewrite (get_reload _ _ s) by done.
  unfold get, init. rewrite Hdb. simpl. unfold objectStores. rewrite Hs. simpl.
  rewrite Hdb. simpl. by destruct (s !! name).
Qed.
End StoreFacts.

(** ** The hook *)

(** Runs the innermost effect whose world is known, leaving the store
    operations folded. *)
Ltac run_known :=
  match goal with
  | |- context [?m (mkWorld ?a ?b ?c ?d ?e ?f ?g)] =>
      let t := constr:(m (mkWorld a b c d e f g)) in
      let r := eval cbv
        [exec loadData finallyLoad catchLoad catchSupabase resumeLoad resumeTest testOffline
         testPassed refresh handleOnline handleOffline initialLoad
         settleLoad settleTest render step withRendered
         bind ret modify reads when
         setData setLoading setError setIsOnline setLastSyncTime
         setInitializationRef setLoadingRef log toast resolveTest
         callLoadFromSupabase newDate dbSet dbGet suspend suspendTest
         onState onRefs onDB onIO onLoads onTests onReact
         state refs offlineDB io loads tests react
         data loading error isOnline lastSyncTime
         initializationRef loadingRef toasts console remoteReads testResults clock
         listeners rendered lt_pc lt_cl lt_waiter tt_cl wt_cl wt_cacheSize
         cl_user cl_isOnline truthy
         lookup list_lookup delete list_delete negb andb orb fst snd] in t in
      progress change t with r
  end.

(** One step of a case analysis along the code: run what can be run, use
    what is known of a store operation, or split on what is not. *)
Ltac along :=
  first
    [ match goal with
      | c : Closure |- _ => destruct c
      | k : Waiter |- _ => destruct k
      | t : TestTask |- _ => destruct t
      | t : LoadTask |- _ => destruct t
      end
    | run_known
    | match goal with
      | E : OfflineFirstDB.get _ ?d = _ |- context [OfflineFirstDB.get _ ?d] => rewrite E
      | E : OfflineFirstDB.set _ _ ?d = _ |- context [OfflineFirstDB.set _ _ ?d] => rewrite E
      | |- context [if ?b then _ else _] => is_var b; destruct b
      | |- context [match ?x with Some _ => _ | None => _ end] => is_var x; destruct x
      | |- context [match ?x with Ok _ => _ | Throw _ => _ end] => is_var x; destruct x
      | |- context [match ?x with AwaitRemote => _ | _ => _ end] => is_var x; destruct x
      | |- context [length ?l =? 0] => destruct (length l =? 0) eqn:?
      | |- context [bool_decide ?P] => destruct (bool_decide P) eqn:?
      | |- context [OfflineFirstDB.get ?k ?d] =>
          destruct (OfflineFirstDB.get k d) as [[?|?] ?] eqn:?
      | |- context [OfflineFirstDB.set ?k ?x ?d] =>
          destruct (OfflineFirstDB.set k x d) as [[[]|?] ?] eqn:?
      end; cbv beta iota zeta ].

Ltac walk :=
  unfold runLoadData, runTestOffline, settleLoads, hookResult;
  repeat along; cbn.

Section HookFacts.
Context {T : Type} `{HasId T}.
Context (cacheKey tableName : string).
Implicit Types (w : World (T:=T)) (cl : Closure) (o : Res (list T)).

Lemma idle_inv w :
  idle w = true → loadingRef (refs w) = false ∧ loads w = [].
Proof.
  unfold idle. rewrite andb_true_iff, bool_decide_eq_true, negb_true_iff.
  tauto.
Qed.

(** Brings an idle world into constructor form. *)
Ltac open_world w Hidle :=
  let Hl := fresh in let Hls := fresh in
  destruct (idle_inv _ Hidle) as (Hl & Hls);
  destruct w as [[dat ldg err onl lst] [ini lr] d [tst con rr trs clk] ls ts [lis ren]];
  simpl in Hl, Hls; subst; clear Hidle.


(** C1 (amended). A load entered by an authenticated caller while online,
    forced or the first one, whose remote read returns [rows] and whose
    write of [rows] to the store succeeds, ends serving [rows], with the
    last-sync time set to the current time and no error; the mirror then
    holds the records of [rows] keyed by id, whatever it held before, which
    is [rows] up to order when the ids are pairwise distinct. *)
Theorem C1_read_through cl forceRefresh w u rows d1 :
  idle w = true →
  cl_user cl = Some u →
  cl_isOnline cl = true →
  forceRefresh || negb (initializationRef (refs w)) = true →
  OfflineFirstDB.set cacheKey rows (offlineDB w) = (Ok tt, d1) →
  let w' := runLoadData cacheKey tableName cl forceRefresh (Ok rows) w in
  data (state w') = rows
  ∧ offlineDB w' = d1
  ∧ OfflineFirstDB.get cacheKey d1 = (Ok (getAll (putAll rows)), d1)
  ∧ (NoDup (id_of <$> rows) → getAll (putAll rows) ≡ₚ rows)
  ∧ lastSyncTime (state w') = Some (clock (io w))
  ∧ error (state w') = None
  ∧ toasts (io w') = toasts (io w)
  ∧ remoteReads (io w') = S (remoteReads (io w))
  ∧ initializationRef (refs w') = true
  ∧ loading (state w') = false
  ∧ loads w' = [].
Proof.
  intros Hidle Hu Hon Hfirst Hset.
  pose proof (set_get _ _ _ _ Hset) as Hget.
  pose proof (getAll_putAll rows) as Hperm.
  open_world w Hidle. destruct cl as [cu co].
  simpl in * |-. subst. destruct forceRefresh, ini; try discriminate Hfirst.
  all: walk; auto 15.
Qed.

(** C6 (amended). A first load entered while offline with a readable,
    empty mirror ends serving no data, with no error value and no toast;
    the no-data condition is written to the console and to nothing the
    caller receives. *)
Theorem C6_first_offline_load_empty_mirror cl forceRefresh o w u d1 :
  idle w = true →
  cl_user cl = Some u →
  cl_isOnline cl = false →
  initializationRef (refs w) = false →
  OfflineFirstDB.get cacheKey (offlineDB w) = (Ok [], d1) →
  let w' := runLoadData cacheKey tableName cl forceRefresh o w in
  console (io w') =
    LogNoCachedDataOffline :: LogLoadedFromCache 0 :: LogLoadingFromCache
    :: LogLoadingData false forceRefresh :: console (io w)
  ∧ hookResult w' =
      mkHookState [] false None (isOnline (state w)) (lastSyncTime (state w))
  ∧ toasts (io w') = toasts (io w)
  ∧ testResults (io w') = testResults (io w)
  ∧ remoteReads (io w') = remoteReads (io w).
Proof.
  intros Hidle Hu Hoff Hini Hget. open_world w Hidle. destruct cl as [cu co].
  simpl in * |-. subst. walk; try (cbn in *; discriminate); auto 10.
Qed.

(** C5. When the remote read throws and the mirror [M] can be read (in
    particular a non-empty one), the load ends serving exactly [M]: the
    failure and the fallback are logged, no error value is set, no toast
    is raised, and the last-sync time is left as it was. *)
Theorem C5_remote_failure_serves_cache cl forceRefresh e w u M d1 :
  idle w = true →
  cl_user cl = Some u →
  cl_isOnline cl = true →
  forceRefresh || negb (initializationRef (refs w)) = true →
  OfflineFirstDB.get cacheKey (offlineDB w) = (Ok M, d1) →
  let w' := runLoadData cacheKey tableName cl forceRefresh (Throw e) w in
  data (state w') = M
  ∧ error (state w') = None
  ∧ toasts (io w') = toasts (io w)
  ∧ lastSyncTime (state w') = lastSyncTime (state w)
  ∧ In (ErrSupabaseLoadFailed e) (console (io w'))
  ∧ In (LogFallingBack (length M)) (console (io w'))
  ∧ remoteReads (io w') = S (remoteReads (io w))
  ∧ loading (state w') = false
  ∧ loads w' = [].
Proof.
  intros Hidle Hu Hon Hfirst Hget. open_world w Hidle. destruct cl as [cu co].
  simpl in * |-. subst. destruct forceRefresh, ini; try discriminate Hfirst.
  all: walk; auto 15.
Qed.

(** C7 (amended). A [loadData] call made with no authenticated caller
    never touches the store, never calls [loadFromSupabase], suspends
    nothing and returns a settled promise.  When no load is in flight it
    sets the data to empty, the error to none and loading to false; when
    one is, the in-flight guard comes first and the call resets nothing. *)
Theorem C7_no_user_reset cl forceRefresh waiter w :
  cl_user cl = None →
  let r := loadData cl forceRefresh waiter w in
  r.1 = false
  ∧ offlineDB r.2 = offlineDB w
  ∧ remoteReads (io r.2) = remoteReads (io w)
  ∧ loads r.2 = loads w
  ∧ tests r.2 = tests w
  ∧ refs r.2 = refs w
  ∧ toasts (io r.2) = toasts (io w)
  ∧ (loadingRef (refs w) = false →
     data (state r.2) = []
     ∧ error (state r.2) = None
     ∧ loading (state r.2) = false
     ∧ isOnline (state r.2) = isOnline (state w)
     ∧ lastSyncTime (state r.2) = lastSyncTime (state w))
  ∧ (loadingRef (refs w) = true → state r.2 = state w).
Proof.
  intros Hu.
  destruct w as [[? ? ? ? ?] [? lr] ? [? ? ? ? ?] ? ? [? ?]], cl as [cu co].
  simpl in * |-. subst. destruct lr; walk; repeat split; auto; discriminate.
Qed.

(** C10. Every [loadData] invocation that enters the load path runs to its
    end whatever the remote read and the store do, and ends with loading
    false and the in-flight flag released; a later call by an
    authenticated caller enters the load path again. *)
Theorem C10_load_releases_flag cl forceRefresh o w :
  idle w = true →
  let w' := runLoadData cacheKey tableName cl forceRefresh o w in
  loading (state w') = false
  ∧ loadingRef (refs w') = false
  ∧ loads w' = []
  ∧ idle w' = true
  ∧ ∀ cl2 force2 waiter, truthy (cl_user cl2) = true →
      (loadData cl2 force2 waiter w').1 = true.
Proof.
  intros Hidle. open_world w Hidle. destruct cl as [[u|] co].
  all: walk; repeat split; auto.
  all: intros [[u2|] co2] f2 k2 Hu2; try discriminate Hu2; walk; auto.
Qed.

(** C9 (amended). [testOffline] on an idle hook first reads the mirror.
    When the read succeeds it resolves with a pass result carrying the
    number of records read, zero included, after having set [isOnline]
    to false, run [loadData(false)] once with the closure it captured,
    and set [isOnline] back to the captured value.  When the read throws
    it resolves with a fail result carrying the error message and no
    cache size, and no load is run. *)
Theorem C9_testOffline_result cl o w :
  idle w = true →
  tests w = [] →
  let w' := runTestOffline cacheKey tableName cl o w in
  match OfflineFirstDB.get cacheKey (offlineDB w) with
  | (Ok cachedData, d1) =>
      let wt := mkWaiter cl (length cachedData) in
      testResults (io w') =
        {| success := true;
           message := "Offline test passed. " +:+ pretty (length cachedData)
                      +:+ " items available in cache.";
           details := PassDetails (length cachedData) tableName (clock (io w)) |}
        :: testResults (io w)
      ∧ w' = exec (testPassed tableName wt)
               (runLoadData cacheKey tableName cl false o
                  (exec (setIsOnline false)
                     (onDB (λ _, d1) (exec (log LogTestingOffline) w))))
      ∧ isOnline (state w') = cl_isOnline cl
      ∧ loads w' = [] ∧ tests w' = []
  | (Throw e, d1) =>
      let msg := if instanceofError e then errorMessage e else "Unknown error" in
      testResults (io w') =
        {| success := false;
           message := "Offline test failed: " +:+ msg;
           details := FailDetails msg tableName (clock (io w)) |}
        :: testResults (io w)
      ∧ state w' = state w
      ∧ refs w' = refs w
      ∧ remoteReads (io w') = remoteReads (io w)
      ∧ loads w' = [] ∧ tests w' = []
  end.
Proof.
  intros Hidle Hts. open_world w Hidle. destruct cl as [[u|] co].
  all: simpl in * |-; subst.
  all: destruct (OfflineFirstDB.get cacheKey d) as [[cached|e] d1] eqn:Hget.
  all: walk; auto 10.
Qed.

(** *** The in-flight flag *)

Lemma singleFlight_cases w :
  singleFlight w →
  (loadingRef (refs w) = false ∧ loads w = [])
  ∨ (loadingRef (refs w) = true ∧ ∃ t, loads w = [t]).
Proof.
  unfold singleFlight. destruct (loadingRef (refs w)); intros Hlen.
  - right. split; [done|]. destruct (loads w) as [|t [|t2 l]]; try discriminate.
    by exists t.
  - left. split; [done|]. by apply nil_length_inv.
Qed.

(** Brings a world with the single-flight invariant into constructor form,
    once for each value of the flag. *)
Ltac open_flight w Hsf :=
  let t := fresh "t" in
  destruct (singleFlight_cases _ Hsf) as [[? ?]|[? [t ?]]];
  clear Hsf;
  destruct w as [[dat ldg err onl lst] [ini lr] d [tst con rr trs clk] ls ts [lis ren]];
  simpl in * |-; subst.

Lemma settleLoad_eq i o w :
  exec (settleLoad cacheKey tableName i o) w =
  match loads w !! i with
  | Some t => exec (resumeLoad cacheKey tableName t o) (onLoads (delete i) w)
  | None => w
  end.
Proof.
  unfold exec, settleLoad, bind, reads, modify. by destruct (loads w !! i).
Qed.

Lemma settleTest_eq i w :
  exec (settleTest cacheKey tableName i) w =
  match tests w !! i with
  | Some t => exec (resumeTest cacheKey tableName t) (onTests (delete i) w)
  | None => w
  end.
Proof.
  unfold exec, settleTest, bind, reads, modify. by destruct (tests w !! i).
Qed.

Lemma loadData_singleFlight cl forceRefresh waiter w :
  singleFlight w → singleFlight (exec (loadData cl forceRefresh waiter) w).
Proof.
  intros Hsf. open_flight w Hsf; destruct cl as [[u|] co].
  all: unfold singleFlight; walk; done.
Qed.

Lemma resumeLoad_singleFlight t o w :
  loadingRef (refs w) = true → loads w = [] →
  singleFlight (exec (resumeLoad cacheKey tableName t o) w).
Proof.
  intros Hlr Hls.
  destruct w as [[dat ldg err onl lst] [ini lr] d [tst con rr trs clk] ls ts [lis ren]].
  destruct t as [pc [cu co] [wt|]]. all: simpl in * |-; subst.
  all: unfold singleFlight; walk; done.
Qed.

Lemma settleLoad_singleFlight i o w :
  singleFlight w → singleFlight (exec (settleLoad cacheKey tableName i o) w).
Proof.
  intros Hsf. rewrite settleLoad_eq.
  destruct (loads w !! i) as [t|] eqn:Hi; [|done].
  destruct (singleFlight_cases _ Hsf) as [[_ Hls]|[Hlr [t' Hls]]];
    rewrite Hls in Hi; [done|].
  destruct i; [|done]. apply resumeLoad_singleFlight.
  - by destruct w.
  - destruct w. simpl in * |-. by subst.
Qed.

Lemma settleTest_singleFlight i w :
  singleFlight w → singleFlight (exec (settleTest cacheKey tableName i) w).
Proof.
  intros Hsf. rewrite settleTest_eq.
  destruct (tests w !! i) as [[[cu co]]|] eqn:Hi; [|done]. clear Hi.
  open_flight w Hsf; destruct cu.
  all: unfold singleFlight, onTests; cbn [state refs offlineDB io loads tests react].
  all: walk; done.
Qed.

Lemma step_singleFlight e w :
  singleFlight w → singleFlight (exec (step cacheKey tableName e) w).
Proof.
  intros Hsf. destruct e as [user| | | | |i o|i|].
  6: by apply settleLoad_singleFlight.
  6: by apply settleTest_singleFlight.
  all: open_flight w Hsf.
  all: unfold singleFlight; walk; done.
Qed.

Lemma reachable_singleFlight w :
  reachable cacheKey tableName w → singleFlight w.
Proof.
  induction 1 as [online d now|e w _ IH]; [done|].
  by apply step_singleFlight.
Qed.

(** C4. In every state the hook can reach at most one [loadData]
    invocation is suspended.  While one is, any further call returns a
    settled promise and does nothing but write its console line.  Two
    calls in a row, the first of which goes to the remote system, make
    one [loadFromSupabase] call, also once the load has run to its end. *)
Theorem C4_single_flight w :
  reachable cacheKey tableName w →
  length (loads w) ≤ 1
  ∧ (loads w ≠ [] →
     ∀ cl forceRefresh waiter,
       loadData cl forceRefresh waiter w = (false, exec (log LogLoadInProgress) w))
  ∧ (loads w = [] →
     ∀ cl1 force1 cl2 force2 o,
       truthy (cl_user cl1) = true →
       cl_isOnline cl1 = true →
       force1 || negb (initializationRef (refs w)) = true →
       let w1 := exec (loadData cl1 force1 None) w in
       let w2 := exec (loadData cl2 force2 None) w1 in
       loads w1 = [mkLoadTask AwaitRemote cl1 None]
       ∧ remoteReads (io w1) = S (remoteReads (io w))
       ∧ w2 = exec (log LogLoadInProgress) w1
       ∧ remoteReads (io (settleLoads cacheKey tableName o w2)) = S (remoteReads (io w))
       ∧ loads (settleLoads cacheKey tableName o w2) = []).
Proof.
  intros Hsf%reachable_singleFlight. split; [|split].
  - unfold singleFlight in Hsf. destruct (loadingRef (refs w)); lia.
  - intros Hne cl forceRefresh waiter. open_flight w Hsf; [done|]. by walk.
  - intros Hnil cl1 force1 cl2 force2 o Hu Hon Hfirst.
    open_flight w Hsf; [|done]. destruct cl1 as [[u|] co]; [|done].
    simpl in * |-. subst. destruct force1, ini; try discriminate Hfirst.
    all: walk; auto.
Qed.

(** *** Forced loads *)



(** *** Beyond the claims *)

(** Carries a read of the store back along the store operations a load
    made. *)
Ltac frame_store :=
  repeat match goal with
    | E : OfflineFirstDB.get _ ?d = (_, ?i) |- context [OfflineFirstDB.get ?n ?i] =>
        rewrite (get_frame _ _ _ _ n E)
    | E : OfflineFirstDB.set _ _ ?d = (Throw _, ?i) |- context [OfflineFirstDB.get ?n ?i] =>
        rewrite (set_throw_frame _ _ _ _ _ n E)
    | E : OfflineFirstDB.set _ _ ?d = (Ok tt, ?i) |- context [(OfflineFirstDB.get ?n ?i).1] =>
        rewrite (set_ok_frame _ _ _ _ n E) by done
    end.

(** Store operations that cannot have gone the way the hypotheses say. *)
Ltac store_absurd :=
  exfalso;
  repeat match goal with
    | E : OfflineFirstDB.set _ _ ?d = (Throw _, ?i),
      E' : OfflineFirstDB.get ?n ?i = _ |- _ =>
        rewrite (set_throw_frame _ _ _ _ _ n E) in E'
    | E : OfflineFirstDB.get _ ?d = (_, ?i),
      E' : OfflineFirstDB.get ?n ?i = _ |- _ =>
        rewrite (get_frame _ _ _ _ n E) in E'
    end;
  congruence.

(** X9. Once a first load has completed, a load that is not forced never
    calls the remote system, online or offline: it serves the mirror as
    read and leaves the last-sync time as it was. *)
Theorem later_loads_read_the_mirror cl o w u M d1 :
  idle w = true →
  cl_user cl = Some u →
  initializationRef (refs w) = true →
  OfflineFirstDB.get cacheKey (offlineDB w) = (Ok M, d1) →
  let w' := runLoadData cacheKey tableName cl false o w in
  data (state w') = M
  ∧ remoteReads (io w') = remoteReads (io w)
  ∧ lastSyncTime (state w') = lastSyncTime (state w)
  ∧ error (state w') = None
  ∧ toasts (io w') = toasts (io w)
  ∧ loads w' = [].
Proof.
  intros Hidle Hu Hini Hget. open_world w Hidle. destruct cl as [cu co].
  simpl in * |-. subst. walk; auto 10.
Qed.

(** X10. A load raises at most one toast, and only when it saw online and
    ended with an error value.  A load that ended with an error value has
    not marked the first load as done and has not touched the last-sync
    time. *)
Theorem toast_only_with_error_online cl forceRefresh o w :
  idle w = true →
  let w' := runLoadData cacheKey tableName cl forceRefresh o w in
  match error (state w') with
  | None => toasts (io w') = toasts (io w)
  | Some _ =>
      toasts (io w') =
        (if cl_isOnline cl
         then [mkToast "Error" ("Failed to load " +:+ tableName +:+ ". Please try again.")
                       "destructive"]
         else []) ++ toasts (io w)
      ∧ initializationRef (refs w') = initializationRef (refs w)
      ∧ lastSyncTime (state w') = lastSyncTime (state w)
      ∧ isOk (OfflineFirstDB.get cacheKey (offlineDB w)).1 = false
  end.
Proof.
  intros Hidle. open_world w Hidle. destruct cl as [[u|] co].
  all: walk; auto.
  all: repeat match goal with
         | E : OfflineFirstDB.get _ ?d = _ |- context [OfflineFirstDB.get _ ?d] =>
             rewrite E
         end; auto.
  all: store_absurd.
Qed.

(** X11. The last-sync time changes only when a remote read returned rows
    and they were written to the store: it is then the current time, the
    rows are served and no error is set.  Every other load leaves it as it
    was. *)
Theorem lastSyncTime_only_after_read_through cl forceRefresh o w :
  idle w = true →
  let w' := runLoadData cacheKey tableName cl forceRefresh o w in
  lastSyncTime (state w') = lastSyncTime (state w)
  ∨ (∃ rows,
       o = Ok rows
       ∧ isOk (OfflineFirstDB.set cacheKey rows (offlineDB w)).1 = true
       ∧ cl_isOnline cl = true
       ∧ lastSyncTime (state w') = Some (clock (io w))
       ∧ data (state w') = rows
       ∧ error (state w') = None).
Proof.
  intros Hidle. open_world w Hidle. destruct cl as [[u|] co].
  all: walk; auto.
  all: right; eexists; split; [reflexivity|].
  all: repeat match goal with
         | E : OfflineFirstDB.set _ _ ?d = _ |- context [OfflineFirstDB.set _ _ ?d] =>
             rewrite E
         end; auto 10.
Qed.

(** X12. Loads of one entity never change what the store returns for
    another table. *)
Theorem load_leaves_other_tables cl forceRefresh o w other :
  idle w = true →
  other ≠ cacheKey →
  let w' := runLoadData cacheKey tableName cl forceRefresh o w in
  (OfflineFirstDB.get other (offlineDB w')).1 = (OfflineFirstDB.get other (offlineDB w)).1.
Proof.
  intros Hidle Hne. open_world w Hidle. destruct cl as [[u|] co].
  all: cbv zeta; pose (read := λ x : IDB T, (OfflineFirstDB.get other x).1).
  all: match goal with
       | |- (OfflineFirstDB.get _ (offlineDB ?W)).1 = (OfflineFirstDB.get _ ?d0).1 =>
           change (read (offlineDB W) = read d0)
       end.
  all: walk; subst read; cbv beta; frame_store; done.
Qed.

(** X13. The mirror is written only with rows the remote system returned:
    a load whose remote read threw, or that did not go to the remote system
    at all, leaves every read of the store as it was. *)
Theorem load_without_rows_keeps_store cl forceRefresh o w name :
  idle w = true →
  isOk o = false
  ∨ truthy (cl_user cl) && cl_isOnline cl
    && (forceRefresh || negb (initializationRef (refs w))) = false →
  let w' := runLoadData cacheKey tableName cl forceRefresh o w in
  OfflineFirstDB.get name (offlineDB w') = OfflineFirstDB.get name (offlineDB w).
Proof.
  intros Hidle Hcase. open_world w Hidle. destruct cl as [[u|] co], o as [rows|e].
  all: simpl in Hcase.
  all: destruct co, forceRefresh, ini; simpl in Hcase.
  all: try (destruct Hcase; discriminate).
  all: cbv zeta; pose (read := λ x : IDB T, OfflineFirstDB.get name x).
  all: match goal with
       | |- OfflineFirstDB.get _ (offlineDB ?W) = OfflineFirstDB.get _ ?d0 =>
           change (read (offlineDB W) = read d0)
       end.
  all: walk; subst read; cbv beta; frame_store; done.
Qed.

(** X14. The first-load mark is never taken back: no render, connectivity
    event, call or settled await resets [initializationRef] once it is
    set, a render with no user included. *)
Theorem initializationRef_is_never_reset e w :
  initializationRef (refs w) = true →
  initializationRef (refs (exec (step cacheKey tableName e) w)) = true.
Proof.
  intros Hini. destruct e as [user| | | | |i o|i|].
  6: { change (exec (step cacheKey tableName (EvSettleLoad i o)) w)
         with (exec (settleLoad cacheKey tableName i o) w).
       rewrite settleLoad_eq. destruct (loads w !! i) as [t|]; [|done].
       destruct w as [[dat ldg err onl lst] [ini lr] d [tst con rr trs clk] ls ts [lis ren]].
       unfold onLoads; cbn [state refs offlineDB io loads tests react].
       simpl in Hini. subst. walk; done. }
  6: { change (exec (step cacheKey tableName (EvSettleTest i)) w)
         with (exec (settleTest cacheKey tableName i) w).
       rewrite settleTest_eq. destruct (tests w !! i) as [t|]; [|done].
       destruct w as [[dat ldg err onl lst] [ini lr] d [tst con rr trs clk] ls ts [lis ren]].
       unfold onTests; cbn [state refs offlineDB io loads tests react].
       simpl in Hini. subst. walk; done. }
  all: destruct w as [[dat ldg err onl lst] [ini lr] d [tst con rr trs clk] ls ts [lis ren]].
  all: simpl in Hini; subst; walk; done.
Qed.

(** X15. Once a first load has completed, a render starts no load and
    changes nothing the hook returns, whoever the user now is: after a
    sign-out the data of the previous user are still served. *)
Theorem render_after_first_load user w :
  initializationRef (refs w) = true →
  let w' := exec (step cacheKey tableName (EvRender user)) w in
  hookResult w' = hookResult w
  ∧ refs w' = refs w
  ∧ offlineDB w' = offlineDB w
  ∧ io w' = io w
  ∧ loads w' = loads w
  ∧ tests w' = tests w
  ∧ rendered (react w') = Some (mkClosure user (isOnline (state w))).
Proof.
  intros Hini.
  destruct w as [[dat ldg err onl lst] [ini lr] d [tst con rr trs clk] ls ts [lis ren]].
  simpl in Hini. subst. walk; auto 10.
Qed.

(** X16. Whatever state the hook has reached, a load in flight ends once
    its awaits settle, at most four of them, whatever they settle with:
    nothing stays suspended and the in-flight flag is released. *)
Theorem in_flight_load_ends o w :
  reachable cacheKey tableName w →
  let w' := settleLoads cacheKey tableName o w in
  loads w' = []
  ∧ loadingRef (refs w') = false
  ∧ (loads w ≠ [] → loading (state w') = false).
Proof.
  intros Hsf%reachable_singleFlight. open_flight w Hsf.
  all: walk; repeat split; done.
Qed.

(** Before the first render nothing is scheduled; from the first render on
    the loading indicator and the in-flight flag move together. *)
Lemma step_loading_tracks_flag e w :
  (rendered (react w) = None ∧ listeners (react w) = None
   ∧ loads w = [] ∧ tests w = []
   ∧ loadingRef (refs w) = false ∧ initializationRef (refs w) = false)
  ∨ (is_Some (rendered (react w)) ∧ loading (state w) = loadingRef (refs w)) →
  let w' := exec (step cacheKey tableName e) w in
  (rendered (react w') = None ∧ listeners (react w') = None
   ∧ loads w' = [] ∧ tests w' = []
   ∧ loadingRef (refs w') = false ∧ initializationRef (refs w') = false)
  ∨ (is_Some (rendered (react w')) ∧ loading (state w') = loadingRef (refs w')).
Proof.
  intros Hinv. cbv zeta.
  destruct w as [[dat ldg err onl lst] [ini lr] d [tst con rr trs clk] ls ts [lis ren]].
  simpl in Hinv.
  destruct Hinv as [(-> & -> & -> & -> & -> & ->)|[[c ->] ->]].
  - destruct e as [user| | | | |i o|i|]; walk.
    all: first [left; done | right; split; [by eexists|done]].
  - destruct e as [user| | | | |i o|i|].
    6: { change (exec (step cacheKey tableName (EvSettleLoad i o)) ?w)
           with (exec (settleLoad cacheKey tableName i o) w).
         rewrite settleLoad_eq. cbn [loads].
         destruct (ls !! i) as [t|];
           [|right; split; [by eexists|done]].
         unfold onLoads; cbn [state refs offlineDB io loads tests react].
         walk. all: right; split; [by eexists|done]. }
    6: { change (exec (step cacheKey tableName (EvSettleTest i)) ?w)
           with (exec (settleTest cacheKey tableName i) w).
         rewrite settleTest_eq. cbn [tests].
         destruct (ts !! i) as [t|];
           [|right; split; [by eexists|done]].
         unfold onTests; cbn [state refs offlineDB io loads tests react].
         walk. all: right; split; [by eexists|done]. }
    all: walk.
    all: right; split; [by eexists|done].
Qed.

(** X17. From the first render on, in every state the hook can reach, the
    loading indicator it returns is true exactly while a load is in
    flight. *)
Theorem loading_tracks_in_flight w :
  reachable cacheKey tableName w →
  is_Some (rendered (react w)) →
  loading (state w) = loadingRef (refs w).
Proof.
  intros Hreach.
  enough ((rendered (react w) = None ∧ listeners (react w) = None
           ∧ loads w = [] ∧ tests w = []
           ∧ loadingRef (refs w) = false ∧ initializationRef (refs w) = false)
          ∨ (is_Some (rendered (react w))
             ∧ loading (state w) = loadingRef (refs w))) as Hinv.
  { intros [c Hc]. destruct Hinv as [(Hnone & _)|[_ Heq]]; [congruence|done]. }
  induction Hreach as [online d now|e w _ IH].
  - left. done.
  - by apply step_loading_tracks_flag.
Qed.

(** X18. Rows cached by a read-through are there after a page reload: when
    the database can be opened again, a load made offline by the new page
    serves the records the write kept, the rows themselves up to order when
    their ids are pairwise distinct, without a remote read. *)
Theorem cached_rows_served_after_reload
    cl forceRefresh w u rows d1 cl2 force2 o2 u2 now2 :
  idle w = true →
  cl_user cl = Some u →
  cl_isOnline cl = true →
  forceRefresh || negb (initializationRef (refs w)) = true →
  OfflineFirstDB.set cacheKey rows (offlineDB w) = (Ok tt, d1) →
  open_failure d1 = None →
  cl_user cl2 = Some u2 →
  cl_isOnline cl2 = false →
  let w1 := runLoadData cacheKey tableName cl forceRefresh (Ok rows) w in
  let w2 := runLoadData cacheKey tableName cl2 force2 o2
              (initialWorld false (reload (offlineDB w1)) now2) in
  data (state w2) = getAll (putAll rows)
  ∧ (NoDup (id_of <$> rows) → data (state w2) ≡ₚ rows)
  ∧ remoteReads (io w2) = 0
  ∧ error (state w2) = None.
Proof.
  intros Hidle Hu Hon Hfirst Hset Hopen Hu2 Hoff2.
  assert (Hdb1 : offlineDB (runLoadData cacheKey tableName cl forceRefresh (Ok rows) w) = d1).
  { open_world w Hidle. destruct cl as [cu co].
    simpl in * |-. subst. destruct forceRefresh, ini; try discriminate Hfirst.
    all: walk; done. }
  cbv zeta. rewrite Hdb1. clear Hdb1.
  pose proof (set_get _ _ _ _ Hset) as Hget.
  apply set_ok_inv in Hset as (d0 & _ & Hdb0 & _ & Hd1).
  assert (Hread : (OfflineFirstDB.get cacheKey (reload d1)).1 = Ok (getAll (putAll rows))).
  { subst d1. erewrite get_reload; [|done|reflexivity].
    by rewrite lookup_insert_eq. }
  destruct (OfflineFirstDB.get cacheKey (reload d1)) as [r d2] eqn:Hget2.
  simpl in Hread. subst r.
  pose proof (getAll_putAll rows) as Hperm.
  destruct cl2 as [cu2 co2]. simpl in * |-. subst cu2 co2.
  unfold initialWorld. walk; auto.
Qed.

(** X20. A self-test started while a load is in flight runs no load of its
    own: its [loadData] call is skipped, the test passes at once with the
    number of records read, and the load in flight stays as it was. *)
Theorem testOffline_during_load cl w M d1 :
  loadingRef (refs w) = true →
  tests w = [] →
  OfflineFirstDB.get cacheKey (offlineDB w) = (Ok M, d1) →
  let w' := exec (settleTest cacheKey tableName 0) (exec (testOffline cl) w) in
  testResults (io w') =
    {| success := true;
       message := "Offline test passed. " +:+ pretty (length M)
                  +:+ " items available in cache.";
       details := PassDetails (length M) tableName (clock (io w)) |}
    :: testResults (io w)
  ∧ loads w' = loads w
  ∧ tests w' = []
  ∧ refs w' = refs w
  ∧ remoteReads (io w') = remoteReads (io w)
  ∧ data (state w') = data (state w)
  ∧ loading (state w') = loading (state w)
  ∧ isOnline (state w') = cl_isOnline cl.
Proof.
  intros Hlr Hts Hget.
  destruct w as [[dat ldg err onl lst] [ini lr] d [tst con rr trs clk] ls ts [lis ren]].
  simpl in * |-. subst. walk; auto 10.
Qed.
End HookFacts.

(** ** Examples, witnesses and counterexamples *)

(** C2: a list with a repeated id.  The replace succeeds and the read
    returns one record, not the two that were put. *)
Lemma C2_counterexample_repeated_id :
  let r := OfflineFirstDB.set "products" [sugar1; sugar2] freshDB in
  r.1 = Ok tt
  ∧ (OfflineFirstDB.get "products" r.2).1 = Ok [sugar2]
  ∧ ¬ [sugar2] ≡ₚ [sugar1; sugar2].
Proof.
  split; [by vm_compute|]. split; [by vm_compute|].
  intros Hp%Permutation_length. discriminate Hp.
Qed.

Lemma C2_witness :
  OfflineFirstDB.set "products" [sugar1; flour] freshDB = (Ok tt, stockedDB)
  ∧ OfflineFirstDB.get "products" stockedDB = (Ok (getAll (putAll [sugar1; flour])), stockedDB)
  ∧ getAll (putAll [sugar1; flour]) ≡ₚ [sugar1; flour].
Proof.
  assert (Hset : OfflineFirstDB.set "products" [sugar1; flour] freshDB = (Ok tt, stockedDB))
    by (vm_compute; reflexivity).
  destruct (C2_bulk_replace_then_getAll "products" [sugar1; flour] freshDB stockedDB Hset)
    as (Hget & _ & Hperm & _).
  split; [exact Hset|]. split; [exact Hget|].
  apply Hperm. apply (bool_decide_unpack _). vm_compute. exact I.
Defined.

(** C1: the remote read succeeds but [indexedDB.open] fails.  The rows read
    are not served: the load ends with no data, an error value and a toast,
    and no last-sync time. *)
Lemma C1_counterexample_store_unavailable :
  let w' := runLoadData "products" "products" owner false (Ok [sugar1; flour])
              (productsPage true blockedDB) in
  remoteReads (io w') = 1
  ∧ data (state w') = []
  ∧ error (state w') = Some "The operation failed."
  ∧ lastSyncTime (state w') = None
  ∧ toasts (io w') =
      [mkToast "Error" "Failed to load products. Please try again." "destructive"]
  ∧ (OfflineFirstDB.get "products" (offlineDB w')).1 =
      Throw (DomException "UnknownError" "The operation failed.").
Proof. vm_compute. repeat split; reflexivity. Qed.

Lemma C1_witness :
  let w' := runLoadData "products" "products" owner false (Ok [sugar1; flour])
              (productsPage true freshDB) in
  data (state w') = [sugar1; flour]
  ∧ offlineDB w' = stockedDB
  ∧ (OfflineFirstDB.get "products" stockedDB).1 = Ok [sugar1; flour]
  ∧ lastSyncTime (state w') = Some 100.
Proof.
  pose proof (C1_read_through "products" "products" owner false
                (productsPage true freshDB) "owner" [sugar1; flour] stockedDB)
    as Hw.
  destruct Hw as (Hdata & Hdb & _ & _ & Hsync & _); try (vm_compute; reflexivity).
  split; [exact Hdata|]. split; [exact Hdb|].
  split; [vm_compute; reflexivity|exact Hsync].
Defined.


Lemma C4_witness :
  length (loads productsMounting) = 1
  ∧ ∀ cl forceRefresh waiter,
      loadData cl forceRefresh waiter productsMounting =
      (false, exec (log LogLoadInProgress) productsMounting).
Proof.
  destruct (C4_single_flight "products" "products" productsMounting) as (_ & Hskip & _).
  - apply reach_step, reach_initial.
  - split; [vm_compute; reflexivity|]. apply Hskip. vm_compute. discriminate.
Defined.

(** The read of "customers" throws while the mirror holds five customers. *)
Lemma C5_witness :
  let w' := runLoadData "customers" "customers" owner false (Throw fetchFailed)
              (productsPage true customersDB) in
  data (state w') = getAll (putAll customers)
  ∧ length (data (state w')) = 5
  ∧ error (state w') = None
  ∧ toasts (io w') = [].
Proof.
  pose proof (C5_remote_failure_serves_cache "customers" "customers" owner false
                fetchFailed (productsPage true customersDB) "owner"
                (getAll (putAll customers)) customersDB)
    as Hw.
  destruct Hw as (Hdata & Herr & Htoasts & _); try (vm_compute; reflexivity).
  split; [exact Hdata|]. split; [vm_compute; reflexivity|].
  split; [exact Herr|exact Htoasts].
Defined.

(** C6: a first load, offline, with an empty mirror.  What the hook hands to
    its caller is what it hands to a caller who is not signed in; there is
    no error value and no toast. *)
Lemma C6_counterexample_nothing_surfaced :
  let w0 := productsPage false freshDB in
  let w' := runLoadData "products" "products" ownerOffline false (Ok []) w0 in
  initializationRef (refs w0) = false
  ∧ (OfflineFirstDB.get "products" (offlineDB w0)).1 = Ok []
  ∧ hookResult w' = mkHookState [] false None false None
  ∧ hookResult w' = hookResult (runLoadData "products" "products" signedOut false (Ok []) w0)
  ∧ toasts (io w') = []
  ∧ testResults (io w') = [].
Proof. vm_compute. repeat split; reflexivity. Qed.

Lemma C6_witness :
  let w' := runLoadData "products" "products" ownerOffline false (Ok [])
              (productsPage false freshDB) in
  console (io w') =
    [LogNoCachedDataOffline; LogLoadedFromCache 0; LogLoadingFromCache;
     LogLoadingData false false]
  ∧ hookResult w' = mkHookState [] false None false None.
Proof.
  pose proof (C6_first_offline_load_empty_mirror "products" "products" ownerOffline
                false (Ok []) (productsPage false freshDB) "owner"
                (OfflineFirstDB.get "products" freshDB).2)
    as Hw.
  destruct Hw as (Hlog & Hres & _); try (vm_compute; reflexivity).
  split; [exact Hlog|exact Hres].
Defined.

(** C7: the caller signs out while the first load is in flight.  The
    render with no user calls [loadData], which only writes 'Load already
    in progress': loading stays true, and once the load settles the rows
    fetched for the previous caller are served; no later render of the
    signed-out page resets them. *)
Lemma C7_counterexample_signed_out_during_load :
  let w := productsMounting in
  let r := loadData signedOutOnline false None w in
  let w1 := exec (step "products" "products" (EvRender None)) w in
  let w2 := run "products" "products"
              [EvSettleLoad 0 (Ok [flour]); EvSettleLoad 0 (Ok []); EvRender None] w1 in
  reachable "products" "products" w2
  ∧ loadingRef (refs w) = true
  ∧ r.2 = exec (log LogLoadInProgress) w
  ∧ loading (state r.2) = true
  ∧ console (io w1) = LogLoadInProgress :: LogInitializing :: console (io w)
  ∧ state w1 = state w
  ∧ rendered (react w2) = Some signedOutOnline
  ∧ data (state w2) = [flour]
  ∧ loading (state w2) = false
  ∧ loads w2 = [].
Proof.
  split; [do 5 apply reach_step; apply reach_initial|].
  vm_compute. repeat split; reflexivity.
Qed.

(** The caller signs out of a page that shows one product. *)
Lemma C7_witness :
  let r := loadData signedOut false None productsLoaded in
  data (state productsLoaded) = [flour]
  ∧ data (state r.2) = []
  ∧ offlineDB r.2 = offlineDB productsLoaded
  ∧ remoteReads (io r.2) = remoteReads (io productsLoaded).
Proof.
  destruct (C7_no_user_reset signedOut false None productsLoaded eq_refl)
    as (_ & Hdb & Hreads & _ & _ & _ & _ & Hreset & _).
  destruct Hreset as (Hdata & _); [vm_compute; reflexivity|].
  split; [vm_compute; reflexivity|]. split; [exact Hdata|].
  split; [exact Hdb|exact Hreads].
Defined.



(** The handler was installed by a render made while offline: its
    [loadData] still sees [isOnline] false when the connection comes back,
    reads the mirror, and the remote system is never asked. *)
Example went_online_with_offline_closure :
  let w := run "products" "products"
             [EvRender (Some "owner"); EvSettleLoad 0 (Ok []); EvOnline;
              EvRender (Some "owner"); EvSettleLoad 0 (Ok [sugar1])]
             (productsPage false stockedDB) in
  isOnline (state w) = true
  ∧ listeners (react w) = Some ownerOffline
  ∧ forcedLoads w = 1
  ∧ remoteReads (io w) = 0
  ∧ loads w = [].
Proof. vm_compute. repeat split; reflexivity. Qed.

(** C9: the self-test with nothing in the mirror passes. *)
Lemma C9_counterexample_empty_mirror_passes :
  let w0 := productsEmptyOffline in
  let w' := runTestOffline "products" "products" ownerOffline (Ok []) w0 in
  rendered (react w0) = Some ownerOffline
  ∧ idle w0 = true
  ∧ (OfflineFirstDB.get "products" (offlineDB w0)).1 = Ok []
  ∧ testResults (io w') =
      [{| success := true;
          message := "Offline test passed. 0 items available in cache.";
          details := PassDetails 0 "products" 100 |}].
Proof. vm_compute. repeat split; reflexivity. Qed.

(** C9: with [indexedDB.open] failing, the fail result has no cache size. *)
Example testOffline_store_unavailable :
  let w' := runTestOffline "products" "products" owner (Ok [])
              (productsPage true blockedDB) in
  testResults (io w') =
    [{| success := false;
        message := "Offline test failed: The operation failed.";
        details := FailDetails "The operation failed." "products" 100 |}]
  ∧ (detailsCacheSize ∘ details) <$> testResults (io w') = [None].
Proof. vm_compute. repeat split; reflexivity. Qed.

Lemma C9_witness :
  let w' := runTestOffline "products" "products" ownerOffline (Ok [])
              (productsPage false stockedDB) in
  testResults (io w') =
    [{| success := true;
        message := "Offline test passed. 2 items available in cache.";
        details := PassDetails 2 "products" 100 |}]
  ∧ isOnline (state w') = false.
Proof.
  pose proof (C9_testOffline_result "products" "products" ownerOffline (Ok [])
                (productsPage false stockedDB))
    as Hw.
  replace (OfflineFirstDB.get "products" (offlineDB (productsPage false stockedDB)))
    with (Ok [sugar1; flour], stockedDB) in Hw by (vm_compute; reflexivity).
  destruct Hw as (Hres & _ & Hon & _); try (vm_compute; reflexivity).
  split; [rewrite Hres; vm_compute; reflexivity|exact Hon].
Defined.

Lemma C10_witness :
  let w' := runLoadData "products" "products" owner false (Ok [sugar1; flour])
              (productsPage true blockedDB) in
  error (state w') = Some "The operation failed."
  ∧ loading (state w') = false
  ∧ loadingRef (refs w') = false
  ∧ loads w' = [].
Proof.
  pose proof (C10_load_releases_flag "products" "products" owner false
                (Ok [sugar1; flour]) (productsPage true blockedDB))
    as Hw.
  destruct Hw as (Hloading & Hflag & Hloads & _); try (vm_compute; reflexivity).
  split; [vm_compute; reflexivity|].
  split; [exact Hloading|]. split; [exact Hflag|exact Hloads].
Defined.

(** *** Beyond the claims: the properties at concrete inputs *)

Lemma get_on_new_database_witness :
  OfflineFirstDB.get "products" freshDB = (Ok [], openedDB)
  ∧ OfflineFirstDB.get "suppliers" freshDB = (Throw notFoundError, openedDB).
Proof.
  split.
  - rewrite (get_on_new_database "products" freshDB) by reflexivity.
    vm_compute. reflexivity.
  - rewrite (get_on_new_database "suppliers" freshDB) by reflexivity.
    vm_compute. reflexivity.
Defined.

Lemma operations_reject_when_open_fails_witness :
  let e := DomException "UnknownError" "The operation failed." in
  OfflineFirstDB.set "products" [flour] blockedDB = (Throw e, blockedDB)
  ∧ OfflineFirstDB.get "products" blockedDB = (Throw e, blockedDB)
  ∧ clear "products" blockedDB = (Throw e, blockedDB).
Proof.
  apply (operations_reject_when_open_fails "products" [flour] blockedDB); reflexivity.
Defined.

Lemma operations_reject_unknown_table_witness :
  OfflineFirstDB.set "suppliers" [flour] freshDB = (Throw notFoundError, openedDB)
  ∧ OfflineFirstDB.get "suppliers" freshDB = (Throw notFoundError, openedDB)
  ∧ clear "suppliers" freshDB = (Throw notFoundError, openedDB)
  ∧ OfflineFirstDB.get "products" openedDB = OfflineFirstDB.get "products" freshDB.
Proof.
  destruct (operations_reject_unknown_table "suppliers" [flour] freshDB openedDB)
    as (Hset & Hget & Hclear & Hframe); try (vm_compute; reflexivity).
  auto.
Defined.

Lemma set_after_set_witness :
  OfflineFirstDB.set "products" [flour] stockedDB = OfflineFirstDB.set "products" [flour] freshDB
  ∧ OfflineFirstDB.set "products" [sugar1; flour] stockedDB = (Ok tt, stockedDB).
Proof.
  apply (set_after_set "products" [sugar1; flour] [flour] freshDB stockedDB).
  vm_compute. reflexivity.
Defined.

Lemma clear_then_get_witness :
  OfflineFirstDB.get "products" clearedDB = (Ok [], clearedDB)
  ∧ (OfflineFirstDB.get "customers" clearedDB).1 = (OfflineFirstDB.get "customers" shopDB).1
  ∧ length (getAll (objectStores shopDB !!! "products")) = 2.
Proof.
  destruct (clear_then_get "products" shopDB clearedDB) as (Hget & Hother);
    [vm_compute; reflexivity|].
  split; [exact Hget|]. split; [by apply Hother|]. vm_compute. reflexivity.
Defined.

Lemma set_keeps_last_per_id_witness :
  let X := [sugar1; sugar2; flour] in
  let d1 := (OfflineFirstDB.set "products" X freshDB).2 in
  ∃ Y, OfflineFirstDB.get "products" d1 = (Ok Y, d1)
       ∧ NoDup (id_of <$> Y)
       ∧ length Y ≤ 3
       ∧ ∀ r, r ∈ Y ↔ last (filter (λ x, id_of x = id_of r) X) = Some r.
Proof.
  apply (set_keeps_last_per_id "products" [sugar1; sugar2; flour] freshDB).
  vm_compute. reflexivity.
Defined.

Lemma reload_keeps_records_witness :
  (OfflineFirstDB.get "products" (reload stockedDB)).1
  = (OfflineFirstDB.get "products" stockedDB).1.
Proof.
  apply reload_keeps_records; [vm_compute; reflexivity ..|].
  exists (objectStores stockedDB).
  exact (eq_refl (database stockedDB) <: database stockedDB = Some (objectStores stockedDB)).
Defined.

Lemma later_loads_read_the_mirror_witness :
  let w' := runLoadData "products" "products" owner false (Ok [sugar1]) productsLoaded in
  initializationRef (refs productsLoaded) = true
  ∧ data (state w') = [flour]
  ∧ remoteReads (io w') = remoteReads (io productsLoaded)
  ∧ lastSyncTime (state w') = lastSyncTime (state productsLoaded).
Proof.
  pose proof (later_loads_read_the_mirror "products" "products" owner (Ok [sugar1])
                productsLoaded "owner" [flour] (offlineDB productsLoaded))
    as Hw.
  destruct Hw as (Hdata & Hreads & Hsync & _); try (vm_compute; reflexivity).
  split; [vm_compute; reflexivity|]. auto.
Defined.

Lemma toast_only_with_error_online_witness :
  let w' := runLoadData "products" "products" owner false (Ok [flour])
              (productsPage true blockedDB) in
  error (state w') = Some "The operation failed."
  ∧ toasts (io w') =
      [mkToast "Error" "Failed to load products. Please try again." "destructive"]
  ∧ initializationRef (refs w') = false
  ∧ lastSyncTime (state w') = None.
Proof.
  pose proof (toast_only_with_error_online "products" "products" owner false (Ok [flour])
                (productsPage true blockedDB))
    as Hw.
  cbv zeta in Hw.
  assert (Herr : error (state (runLoadData "products" "products" owner false (Ok [flour])
                                 (productsPage true blockedDB)))
                 = Some "The operation failed.") by (vm_compute; reflexivity).
  rewrite Herr in Hw.
  destruct Hw as (Htoasts & Hini & Hsync & _); [vm_compute; reflexivity|].
  split; [exact Herr|]. split; [exact Htoasts|]. split; [exact Hini|exact Hsync].
Defined.

Lemma lastSyncTime_only_after_read_through_witness :
  let w := productsPage true stockedDB in
  let w' := runLoadData "products" "products" owner false (Throw fetchFailed) w in
  lastSyncTime (state w') = lastSyncTime (state w).
Proof.
  destruct (lastSyncTime_only_after_read_through "products" "products" owner false
              (Throw fetchFailed) (productsPage true stockedDB))
    as [Hsame|(rows & Hrows & _)]; [vm_compute; reflexivity|exact Hsame|discriminate Hrows].
Defined.

Lemma load_leaves_other_tables_witness :
  let w' := runLoadData "customers" "customers" owner true (Ok customers)
              (productsPage true stockedDB) in
  (OfflineFirstDB.get "products" (offlineDB w')).1 = Ok [sugar1; flour]
  ∧ length (data (state w')) = 5.
Proof.
  pose proof (load_leaves_other_tables "customers" "customers" owner true (Ok customers)
                (productsPage true stockedDB) "products")
    as Hw.
  split; [|vm_compute; reflexivity].
  rewrite Hw; [vm_compute; reflexivity ..|done].
Defined.

Lemma load_without_rows_keeps_store_witness :
  let w := productsPage true stockedDB in
  let w' := runLoadData "products" "products" owner true (Throw fetchFailed) w in
  OfflineFirstDB.get "products" (offlineDB w') = OfflineFirstDB.get "products" stockedDB
  ∧ OfflineFirstDB.get "customers" (offlineDB w') = OfflineFirstDB.get "customers" stockedDB.
Proof.
  split.
  - apply (load_without_rows_keeps_store "products" "products" owner true
             (Throw fetchFailed) (productsPage true stockedDB) "products");
      [vm_compute; reflexivity|left; reflexivity].
  - apply (load_without_rows_keeps_store "products" "products" owner true
             (Throw fetchFailed) (productsPage true stockedDB) "customers");
      [vm_compute; reflexivity|left; reflexivity].
Defined.

Lemma initializationRef_is_never_reset_witness :
  initializationRef (refs productsWentOffline) = true
  ∧ initializationRef
      (refs (exec (step "products" "products" (EvRender None)) productsWentOffline)) = true.
Proof.
  assert (Hini : initializationRef (refs productsWentOffline) = true)
    by (vm_compute; reflexivity).
  split; [exact Hini|].
  exact (initializationRef_is_never_reset "products" "products" (EvRender None)
           productsWentOffline Hini).
Defined.

Lemma render_after_first_load_witness :
  let w' := exec (step "products" "products" (EvRender None)) productsWentOffline in
  rendered (react productsWentOffline) = Some ownerOffline
  ∧ rendered (react w') = Some signedOut
  ∧ hookResult w' = hookResult productsWentOffline
  ∧ data (hookResult w') = [flour]
  ∧ loads w' = loads productsWentOffline.
Proof.
  pose proof (render_after_first_load "products" "products" None productsWentOffline)
    as Hw.
  destruct Hw as (Hres & _ & _ & _ & Hloads & _ & Hren); [vm_compute; reflexivity|].
  split; [vm_compute; reflexivity|].
  split; [rewrite Hren; vm_compute; reflexivity|].
  split; [exact Hres|]. split; [rewrite Hres; vm_compute; reflexivity|exact Hloads].
Defined.

Lemma in_flight_load_ends_witness :
  let w' := settleLoads "products" "products" (Throw fetchFailed) productsMounting in
  loads productsMounting = [mkLoadTask AwaitRemote owner None]
  ∧ loads w' = []
  ∧ loadingRef (refs w') = false
  ∧ loading (state w') = false.
Proof.
  destruct (in_flight_load_ends "products" "products" (Throw fetchFailed) productsMounting)
    as (Hloads & Hflag & Hloading).
  - apply reach_step, reach_initial.
  - split; [vm_compute; reflexivity|]. split; [exact Hloads|].
    split; [exact Hflag|]. apply Hloading. vm_compute. discriminate.
Defined.

Lemma loading_tracks_in_flight_witness :
  loading (state productsMounting) = loadingRef (refs productsMounting)
  ∧ loadingRef (refs productsMounting) = true.
Proof.
  split; [|vm_compute; reflexivity].
  apply (loading_tracks_in_flight "products" "products" productsMounting).
  - apply reach_step, reach_initial.
  - eexists. vm_compute. reflexivity.
Defined.

Lemma cached_rows_served_after_reload_witness :
  let w1 := runLoadData "products" "products" owner false (Ok [sugar1; flour])
              (productsPage true freshDB) in
  let w2 := runLoadData "products" "products" ownerOffline false (Throw fetchFailed)
              (initialWorld false (reload (offlineDB w1)) 200) in
  data (state w2) ≡ₚ [sugar1; flour]
  ∧ remoteReads (io w2) = 0
  ∧ error (state w2) = None.
Proof.
  pose proof (cached_rows_served_after_reload "products" "products" owner false
                (productsPage true freshDB) "owner" [sugar1; flour] stockedDB
                ownerOffline false (Throw fetchFailed) "owner" 200)
    as Hw.
  destruct Hw as (_ & Hperm & Hreads & Herr); try (vm_compute; reflexivity).
  split; [|split; [exact Hreads|exact Herr]].
  apply Hperm. apply (bool_decide_unpack _). vm_compute. exact I.
Defined.


Lemma testOffline_during_load_witness :
  let w' := exec (settleTest "products" "products" 0)
              (exec (testOffline owner) productsMounting) in
  testResults (io w') =
    [{| success := true;
        message := "Offline test passed. 0 items available in cache.";
        details := PassDetails 0 "products" 100 |}]
  ∧ loads w' = loads productsMounting
  ∧ remoteReads (io w') = remoteReads (io productsMounting).
Proof.
  pose proof (testOffline_during_load "products" "products" owner productsMounting
                [] (OfflineFirstDB.get "products" freshDB).2)
    as Hw.
  destruct Hw as (Hres & Hloads & _ & _ & Hreads & _); try (vm_compute; reflexivity).
  split; [rewrite Hres; vm_compute; reflexivity|]. split; [exact Hloads|exact Hreads].
Defined.
